(** * Recipe Search API: image validation and result filtering

    A shallow embedding of [main.py]: the domain extractor
    [get_domain_name], the image validator [validate_image_url] and the
    request handler [search_recipes], with the properties the service
    description states about them.

    Conventions.
    - A Python [str] is a Rocq [string]; each character stands for the code
      point of its byte value, so the model covers text over the code
      points 0..255.
    - A call that may raise returns a [PyResult].
    - The network (the search provider, the image proxy) and the join of
      concurrent tasks are an explicit [World]; every request that goes out
      is appended to a log of [event]s.
    - Library behaviour the program relies on but does not define (where
      [urlparse] rejects a network location, how the response model
      coerces a value into a [str] field) is a [Library] of functions the
      development is parametric in. *)

From Stdlib Require Import ZArith List String Ascii Bool Lia DecimalString Sorted.
Import ListNotations.
Local Open Scope string_scope.
Local Open Scope list_scope.

(** ** Exceptions and results *)

(** Exceptions raised by the libraries and builtins the program calls.  All
    of them derive from [Exception]; [msg] is what [str(e)] gives. *)
Inductive exn : Type :=
| RequestException (msg : string)   (* requests.exceptions.RequestException and subclasses *)
| OtherException (msg : string).    (* any other subclass of Exception *)

Definition exn_str (e : exn) : string :=
  match e with
  | RequestException msg => msg
  | OtherException msg => msg
  end.

Inductive PyResult (A : Type) : Type :=
| Ok (a : A)
| Raise (e : exn).
Arguments Ok {A} a.
Arguments Raise {A} e.

(** [d.get(key, default)] on an optional entry. *)
Definition get {A : Type} (entry : option A) (default : A) : A :=
  match entry with
  | Some v => v
  | None => default
  end.

(** ** Strings *)

Module Str.

Definition code (c : ascii) : nat := nat_of_ascii c.

Definition in_range (lo hi : nat) (c : ascii) : bool :=
  (lo <=? code c)%nat && (code c <=? hi)%nat.

Definition eqc (a b : ascii) : bool := Ascii.eqb a b.

Definition isascii_char (c : ascii) : bool := (code c <? 128)%nat.
Definition isupper_ascii (c : ascii) : bool := in_range 65 90 c.
Definition islower_ascii (c : ascii) : bool := in_range 97 122 c.
Definition isalpha_ascii (c : ascii) : bool := isupper_ascii c || islower_ascii c.
Definition isdigit (c : ascii) : bool := in_range 48 57 c.

(** Characters [str.lower] changes below code point 256: A-Z and the
    Latin-1 capitals 0xC0-0xDE except the multiplication sign 0xD7. *)
Definition has_lower (c : ascii) : bool :=
  isupper_ascii c || (in_range 192 222 c && negb (code c =? 215)%nat).

Definition lower_char (c : ascii) : ascii :=
  if has_lower c then ascii_of_nat (code c + 32) else c.

(** [s.lower()] *)
Fixpoint lower (s : string) : string :=
  match s with
  | EmptyString => EmptyString
  | String c s' => String (lower_char c) (lower s')
  end.

(** [s.startswith(p)] *)
Definition startswith (s p : string) : bool := String.prefix p s.

(** [s[n:]] *)
Fixpoint drop (n : nat) (s : string) : string :=
  match n, s with
  | O, _ => s
  | S _, EmptyString => EmptyString
  | S n', String _ s' => drop n' s'
  end.

(** [s[:n]] *)
Fixpoint take (n : nat) (s : string) : string :=
  match n, s with
  | O, _ => EmptyString
  | S _, EmptyString => EmptyString
  | S n', String c s' => String c (take n' s')
  end.

(** [s[i:j]] for [0 <= i], [0 <= j] *)
Definition slice (i j : nat) (s : string) : string := take (j - i) (drop i s).

(** [s.find(c)]; [None] stands for -1. *)
Fixpoint find (c : ascii) (s : string) : option nat :=
  match s with
  | EmptyString => None
  | String c' s' => if eqc c' c then Some O else option_map S (find c s')
  end.

(** [s.find(c, start)] *)
Definition find_from (c : ascii) (start : nat) (s : string) : option nat :=
  option_map (Nat.add start) (find c (drop start s)).

(** [c in s] *)
Fixpoint contains (c : ascii) (s : string) : bool :=
  match s with
  | EmptyString => false
  | String c' s' => eqc c' c || contains c s'
  end.

(** [s.replace(c, "")] *)
Fixpoint remove (c : ascii) (s : string) : string :=
  match s with
  | EmptyString => EmptyString
  | String c' s' => if eqc c' c then remove c s' else String c' (remove c s')
  end.

(** [all(p(c) for c in s)] *)
Fixpoint all (p : ascii -> bool) (s : string) : bool :=
  match s with
  | EmptyString => true
  | String c s' => p c && all p s'
  end.

(** [s.lstrip(chars)], the set [chars] given by its membership test. *)
Fixpoint lstrip (p : ascii -> bool) (s : string) : string :=
  match s with
  | EmptyString => EmptyString
  | String c s' => if p c then lstrip p s' else s
  end.

(** [s.isascii()] *)
Definition isascii (s : string) : bool := all isascii_char s.

(** Truth value of a string: [bool(s)]. *)
Definition truthy (s : string) : bool :=
  match s with
  | EmptyString => false
  | String _ _ => true
  end.

End Str.

(** ** Library behaviour the development is parametric in *)

(** Values found under the scalar keys of [searchInformation]: JSON strings
    and numbers.  A float is known by what the program can observe of it:
    the text [str] prints and the result of [int]. *)
Record pyfloat : Type := {
  float_str : string;
  float_int : PyResult Z
}.

Inductive pyval : Type :=
| PStr (s : string)
| PInt (n : Z)
| PFloat (f : pyfloat).

Record Library : Type := {
  (** [urllib.parse._check_bracketed_netloc]: whether a network location
      holding both brackets is accepted (IPv6 and IPvFuture literal
      syntax).  Releases of the library before this check accept all. *)
  check_bracketed_netloc : string -> bool;
  (** The NFKC test of [urllib.parse._checknetloc] on a network location
      that is not ASCII: whether it is accepted. *)
  nfkc_netloc_ok : string -> bool;
  (** Validation of a value given for a field annotated [str] in a
      response model: the string stored, or the validation error. *)
  str_field : pyval -> PyResult string
}.

(** ** [urllib.parse.urlparse(url).netloc] *)

Module UrlParse.
Import Str.

(** [scheme_chars]: letters, digits and [+-.] *)
Definition scheme_chars (c : ascii) : bool :=
  isalpha_ascii c || isdigit c || contains c "+-.".

(** [_WHATWG_C0_CONTROL_OR_SPACE]: code points 0x00..0x20 *)
Definition C0_control_or_space (c : ascii) : bool := (code c <=? 32)%nat.

(** [_UNSAFE_URL_BYTES_TO_REMOVE]: tab, carriage return, line feed *)
Definition UNSAFE_URL_BYTES_TO_REMOVE : list ascii :=
  [ascii_of_nat 9; ascii_of_nat 13; ascii_of_nat 10].

(** [_splitnetloc(url, start)]: the earliest of [/], [?], [#] from
    [start] on ends the network location. *)
Definition splitnetloc (url : string) (start : nat) : string * string :=
  let delim :=
    fold_left
      (fun delim c =>
         match find_from c start url with
         | Some wdelim => Nat.min delim wdelim
         | None => delim
         end)
      ["/"; "?"; "#"]%char (String.length url) in
  (slice start delim url, drop delim url).

(** [_checknetloc(netloc)] *)
Definition checknetloc (lib : Library) (netloc : string) : bool :=
  if negb (truthy netloc) || isascii netloc then true
  else nfkc_netloc_ok lib netloc.

(** [urlsplit], first step: strip leading control characters and
    spaces, then delete tabs and line breaks. *)
Definition sanitize (url : string) : string :=
  let url := lstrip C0_control_or_space url in
  fold_left (fun u b => remove b u) UNSAFE_URL_BYTES_TO_REMOVE url.

(** [urlsplit], second step: split off a scheme, if [url] starts with a
    letter and everything before the first colon is in [scheme_chars]. *)
Definition after_scheme (url : string) : string :=
  match find ":" url, url with
  | Some (S i), String c0 _ =>
      if isascii_char c0 && isalpha_ascii c0 && all scheme_chars (take (S i) url)
      then drop (S i + 1) url
      else url
  | _, _ => url
  end.

(** [urlsplit], the checks on the network location: [ValueError] on
    unbalanced or rejected brackets and on rejected non-ASCII text. *)
Definition checked_netloc (lib : Library) (netloc : string) : PyResult string :=
  if (contains "[" netloc && negb (contains "]" netloc))
     || (contains "]" netloc && negb (contains "[" netloc))
  then Raise (OtherException "Invalid IPv6 URL")
  else if contains "[" netloc && contains "]" netloc
          && negb (check_bracketed_netloc lib netloc)
  then Raise (OtherException "Invalid IPv6 URL")
  else if negb (checknetloc lib netloc)
  then Raise (OtherException "netloc contains invalid characters under NFKC normalization")
  else Ok netloc.

(** The part of [urlsplit] that decides [netloc]: the text after [//] up
    to the first delimiter, empty when the URL (past its scheme) does
    not start with [//]. *)
Definition urlsplit_netloc (lib : Library) (url : string) : PyResult string :=
  let url := after_scheme (sanitize url) in
  if String.eqb (take 2 url) "//" then
    checked_netloc lib (fst (splitnetloc url 2))
  else Ok "".

End UrlParse.

(** ** The domain extractor (main.py, lines 53-63) *)

Section DomainName.
Variable lib : Library.

Definition get_domain_name (url : string) : string :=
  match UrlParse.urlsplit_netloc lib url with
  | Ok netloc =>
      let domain := Str.lower netloc in
      if Str.startswith domain "www." then Str.drop 4 domain else domain
  | Raise _ => "unknown"
  end.

End DomainName.

(** ** Builtins on scalar values: [int] and [str] *)

Module PyInt.
Import Str.

(** [Py_ISSPACE]: the whitespace [int] skips around a literal. *)
Definition c_space (c : ascii) : bool :=
  in_range 9 13 c || (code c =? 32)%nat.

(** The text [int] parses: a character below 127 as it is, the Latin-1
    spaces 0x85 and 0xA0 as a space, any other character as [?]. *)
Definition to_ascii_char (c : ascii) : ascii :=
  if (code c <? 127)%nat then c
  else if (code c =? 133)%nat || (code c =? 160)%nat then " "%char
  else "?"%char.

Fixpoint to_ascii (s : string) : string :=
  match s with
  | EmptyString => EmptyString
  | String c s' => String (to_ascii_char c) (to_ascii s')
  end.

Definition digit_value (c : ascii) : Z := Z.of_nat (code c - 48).

(** The scan over digits and underscores: the value read, the number of
    digits and the text left, or [None] on two underscores in a row or an
    underscore at the end of the digits. *)
Fixpoint scan_digits (s : string) (acc : Z) (n : nat) (after_underscore : bool)
  : option (Z * nat * string) :=
  match s with
  | EmptyString => if after_underscore then None else Some (acc, n, s)
  | String c s' =>
      if isdigit c then scan_digits s' (acc * 10 + digit_value c)%Z (S n) false
      else if eqc c "_" then
        if after_underscore then None else scan_digits s' acc n true
      else if after_underscore then None else Some (acc, n, s)
  end.

(** [sys.get_int_max_str_digits()], the default *)
Definition int_max_str_digits : nat := 4300.

Definition decimal (n : nat) : string := NilZero.string_of_uint (Nat.to_uint n).

Definition single_quote : ascii := ascii_of_nat 39.
Definition double_quote : ascii := ascii_of_nat 34.
Definition backslash : ascii := ascii_of_nat 92.

(** [c.isprintable()] below code point 256 *)
Definition isprintable (c : ascii) : bool :=
  negb (code c <? 32)%nat && negb (in_range 127 160 c) && negb (code c =? 173)%nat.

Definition hex_digit (n : nat) : ascii :=
  if (n <? 10)%nat then ascii_of_nat (48 + n) else ascii_of_nat (87 + n).

Definition repr_char (quote c : ascii) : string :=
  if eqc c quote || eqc c backslash then String backslash (String c EmptyString)
  else if (code c =? 9)%nat then "\t"
  else if (code c =? 10)%nat then "\n"
  else if (code c =? 13)%nat then "\r"
  else if isprintable c then String c EmptyString
  else String backslash
         (String "x" (String (hex_digit (code c / 16))
                             (String (hex_digit (code c mod 16)) EmptyString))).

Fixpoint repr_body (quote : ascii) (s : string) : string :=
  match s with
  | EmptyString => String quote EmptyString
  | String c s' => (repr_char quote c ++ repr_body quote s')%string
  end.

(** [repr(s)] for a string [s]: in single quotes, or in double quotes when
    [s] holds a single quote and no double quote. *)
Definition repr (s : string) : string :=
  let quote :=
    if contains single_quote s && negb (contains double_quote s)
    then double_quote else single_quote in
  String quote (repr_body quote s).

(** The [ValueError] of a literal that is no number; the text shows the
    first 200 characters of [repr(s)]. *)
Definition invalid_literal (s : string) : exn :=
  OtherException ("invalid literal for int() with base 10: " ++ take 200 (repr s))%string.

(** The [ValueError] of a literal with too many digits. *)
Definition too_many_digits (n : nat) : exn :=
  OtherException
    ("Exceeds the limit (" ++ decimal int_max_str_digits
     ++ " digits) for integer string conversion: value has " ++ decimal n
     ++ " digits; use sys.set_int_max_str_digits() to increase the limit")%string.

(** [int(s)] for a string [s]: whitespace, a sign, digits with single
    underscores between them, whitespace.  The limit on the number of
    digits is checked when the digits have been scanned, before what
    follows them is looked at. *)
Definition int_of_str (s : string) : PyResult Z :=
  let t := lstrip c_space (to_ascii s) in
  let '(negative, body) :=
    match t with
    | String c b =>
        if eqc c "+" then (false, b)
        else if eqc c "-" then (true, b)
        else (false, t)
    | EmptyString => (false, t)
    end in
  if startswith body "_" then Raise (invalid_literal s)
  else
    match scan_digits body 0 0 false with
    | None => Raise (invalid_literal s)
    | Some (v, n, rest) =>
        if (int_max_str_digits <? n)%nat then Raise (too_many_digits n)
        else if (n =? 0)%nat then Raise (invalid_literal s)
        else if all c_space rest then Ok (if negative then (- v)%Z else v)
        else Raise (invalid_literal s)
    end.

End PyInt.

(** [int(v)] *)
Definition py_int (v : pyval) : PyResult Z :=
  match v with
  | PStr s => PyInt.int_of_str s
  | PInt n => Ok n
  | PFloat f => float_int f
  end.

(** [str(v)] *)
Definition py_str (v : pyval) : string :=
  match v with
  | PStr s => s
  | PInt n => NilZero.string_of_int (Z.to_int n)
  | PFloat f => float_str f
  end.

(** ** Data model (main.py, lines 11-21) *)

Record SearchResult : Type := {
  title : string;
  url : string;
  image : string;
  source : string;
  snippet : option string
}.

Record SearchResponse : Type := {
  results : list SearchResult;
  total_results : Z;
  search_time : string
}.

(** The JSON body of the search provider, at the shape the handler reads:
    every key may be missing. *)
Record ImageInfo : Type := {
  contextLink : option string
}.

Record Item : Type := {
  item_title : option string;
  item_link : option string;
  item_snippet : option string;
  item_image : option ImageInfo;
  item_displayLink : option string
}.

Record SearchInformation : Type := {
  searchTime : option pyval;
  totalResults : option pyval
}.

Record UpstreamData : Type := {
  items : option (list Item);
  searchInformation : option SearchInformation
}.

(** ** The world outside the process *)

Record SearchParams : Type := {
  p_key : string;
  p_cx : string;
  p_q : string;
  p_num : Z;
  p_searchType : string;
  p_safe : string;
  p_fields : string
}.

(** What [requests.get] hands back: the status, the text of the
    [HTTPError] that [raise_for_status] builds for it, and what [json()]
    gives. *)
Record Response : Type := {
  status_code : Z;
  http_error : string;
  json : PyResult UpstreamData
}.

Inductive Reply : Type :=
| GetRaises (e : exn)
| GetReturns (r : Response).

Record HeadResponse : Type := {
  status : Z;
  headers : list (string * string)
}.

Inductive ProbeOutcome : Type :=
| ProbeRaises (e : exn)              (* connection error, timeout, invalid URL *)
| ProbeReturns (r : HeadResponse).

(** Requests that leave the process, oldest first. *)
Inductive event : Type :=
| EvSearch (search_url : string) (params : SearchParams)
| EvProbe (proxy_url : string).

Definition is_probe (e : event) : bool :=
  match e with
  | EvProbe _ => true
  | EvSearch _ _ => false
  end.

Definition is_search (e : event) : bool := negb (is_probe e).

(** The answers of the world may depend on everything sent before.
    [gather_fault] is the exception the join of the validation tasks raises
    by itself, if any. *)
Record World : Type := {
  search_api : list event -> string -> SearchParams -> Reply;
  head_probe : list event -> string -> ProbeOutcome;
  gather_fault : option exn
}.

(** ** Computations: a log of events and exceptions *)

Definition M (A : Type) : Type := list event -> PyResult A * list event.

Definition ret {A : Type} (a : A) : M A := fun log => (Ok a, log).

Definition bind {A B : Type} (m : M A) (k : A -> M B) : M B :=
  fun log =>
    match m log with
    | (Ok a, log') => k a log'
    | (Raise e, log') => (Raise e, log')
    end.

Definition lift {A : Type} (r : PyResult A) : M A := fun log => (r, log).

(** [try: m  except Exception: handler] *)
Definition try_except {A : Type} (m : M A) (handler : exn -> M A) : M A :=
  fun log =>
    match m log with
    | (Ok a, log') => (Ok a, log')
    | (Raise e, log') => handler e log'
    end.

Declare Scope py_scope.
Delimit Scope py_scope with py.
Notation "x <- m ;; k" := (bind m (fun x => k))
  (at level 100, m at next level, right associativity) : py_scope.
Local Open Scope py_scope.

(** What a request handler ends with. *)
Inductive HandlerOutcome : Type :=
| Returns (response : SearchResponse)
| HTTPException (code : Z) (detail : string)
| Unhandled (e : exn).

Inductive TaskResult : Type :=
| Returned (b : bool)
| Raised (e : exn).

(** ** The program *)

Section Program.
Variable lib : Library.
Variable w : World.

(** [session.head(proxy_url)] under the five-second timeout: the probe is
    logged, and the world answers or the call raises. *)
Definition session_head (proxy_url : string) : M HeadResponse :=
  fun log =>
    let log' := log ++ [EvProbe proxy_url] in
    match head_probe w log proxy_url with
    | ProbeRaises e => (Raise e, log')
    | ProbeReturns r => (Ok r, log')
    end.

(** [response.headers.get(key, default)]: header names compare without
    regard to case, the first match wins. *)
Definition headers_get (hs : list (string * string)) (key default : string) : string :=
  match List.find (fun kv => String.eqb (Str.lower (fst kv)) (Str.lower key)) hs with
  | Some (_, v) => v
  | None => default
  end.

(** main.py, lines 33-50.  [None] is an absent URL. *)
Definition validate_image_url (image_url : option string) : M bool :=
  match image_url with
  | None => ret false
  | Some image_url =>
      if negb (Str.truthy image_url) then ret false
      else
        let proxy_url := ("https://images.weserv.nl/?url=" ++ image_url)%string in
        try_except
          (response <- session_head proxy_url ;;
           if (status response =? 200)%Z then
             let content_type :=
               Str.lower (headers_get (headers response) "content-type" "") in
             ret (Str.startswith content_type "image/")
           else ret false)
          (fun _ => ret false)
  end.

(** [requests.get(search_url, params=params, timeout=10)] *)
Definition requests_get (search_url : string) (params : SearchParams) : M Response :=
  fun log =>
    let log' := log ++ [EvSearch search_url params] in
    match search_api w log search_url params with
    | GetRaises e => (Raise e, log')
    | GetReturns r => (Ok r, log')
    end.

(** [response.raise_for_status()] *)
Definition raise_for_status (response : Response) : M unit :=
  if ((400 <=? status_code response) && (status_code response <? 600))%Z
  then lift (Raise (RequestException (http_error response)))
  else ret tt.

(** [asyncio.gather] with [return_exceptions=True]: every task runs to
    its end and leaves its value or its exception, in task order.  The
    probes of one batch are logged in task order. *)
Fixpoint run_tasks (tasks : list (M bool)) (log : list event)
  : list TaskResult * list event :=
  match tasks with
  | [] => ([], log)
  | task :: tasks' =>
      let '(r, log') := task log in
      let '(rs, log'') := run_tasks tasks' log' in
      ((match r with Ok b => Returned b | Raise e => Raised e end) :: rs, log'')
  end.

(** [await asyncio.gather(...)]: the join raises by itself when the world
    has a [gather_fault], and otherwise returns the results of the tasks. *)
Definition gather (tasks : list (M bool)) : M (list TaskResult) :=
  fun log =>
    match gather_fault w with
    | Some e => (Raise e, log)
    | None => let '(rs, log') := run_tasks tasks log in (Ok rs, log')
    end.

(** [is_valid is True] *)
Definition is_True (is_valid : TaskResult) : bool :=
  match is_valid with
  | Returned true => true
  | _ => false
  end.

(** main.py, lines 154-160: the loop over [zip(results, validation_results)] *)
Definition keep_validated (results : list SearchResult)
    (validation_results : list TaskResult) : list SearchResult :=
  fold_left
    (fun validated_results '(result, is_valid) =>
       if is_True is_valid then validated_results ++ [result]
       else validated_results)
    (combine results validation_results) [].

(** main.py, lines 149-164: validate all images, keep the results whose
    validation passed; if the join itself raises, keep them all. *)
Definition validate_all (results : list SearchResult)
    (validation_tasks : list (M bool)) : M (list SearchResult) :=
  try_except
    (validation_results <- gather validation_tasks ;;
     ret (keep_validated results validation_results))
    (fun _ => ret results).

(** main.py, lines 118-147: the body of the loop over [items] *)
Definition process_item (acc : list SearchResult * list (M bool)) (item : Item)
  : list SearchResult * list (M bool) :=
  let '(results, validation_tasks) := acc in
  let title := get (item_title item) "" in
  let snippet := get (item_snippet item) "" in
  let display_link := get (item_displayLink item) "" in
  let image_info := get (item_image item) {| contextLink := None |} in
  let recipe_url := get (contextLink image_info) "" in
  let google_image := get (item_link item) "" in
  if negb (Str.truthy recipe_url) || negb (Str.truthy google_image) then acc
  else
    let source := get_domain_name lib recipe_url in
    let result := {| title := title; url := recipe_url; image := google_image;
                     source := source; snippet := Some snippet |} in
    (results ++ [result], validation_tasks ++ [validate_image_url (Some google_image)]).

(** [SearchResponse(results=..., total_results=..., search_time=...)] *)
Definition new_SearchResponse (results : list SearchResult) (total_results : Z)
    (search_time : pyval) : M SearchResponse :=
  search_time <- lift (str_field lib search_time) ;;
  ret {| results := results; total_results := total_results;
         search_time := search_time |}.

Definition search_url : string := "https://www.googleapis.com/customsearch/v1".

Definition search_params (q key cx : string) (num : Z) : SearchParams :=
  {| p_key := key; p_cx := cx; p_q := q; p_num := Z.min num 10;
     p_searchType := "image"; p_safe := "active";
     p_fields := "items(title,link,snippet,image,displayLink),searchInformation(searchTime,totalResults)" |}.

(** main.py, lines 93-96: the body of the first [try] *)
Definition fetch (params : SearchParams) : M UpstreamData :=
  response <- requests_get search_url params ;;
  _ <- raise_for_status response ;;
  lift (json response).

(** main.py, lines 103-170: from the provider's data to the response *)
Definition respond (data : UpstreamData) : M SearchResponse :=
  let items := get (items data) [] in
  let search_info :=
    get (searchInformation data) {| searchTime := None; totalResults := None |} in
  match items with
  | [] =>
      new_SearchResponse [] 0 (get (searchTime search_info) (PStr "0"))
  | _ :: _ =>
      let '(results, validation_tasks) := fold_left process_item items ([], []) in
      results <- validate_all results validation_tasks ;;
      total_results <-
        lift (py_int (get (totalResults search_info)
                          (PInt (Z.of_nat (List.length results))))) ;;
      new_SearchResponse results total_results
        (PStr (py_str (get (searchTime search_info) (PStr "0"))))
  end.

(** main.py, lines 66-170 *)
Definition search_recipes (q key cx : string) (num : Z)
  : list event -> HandlerOutcome * list event :=
  fun log =>
    match fetch (search_params q key cx num) log with
    | (Raise (RequestException msg), log') =>
        (HTTPException 500 ("Google Search API error: " ++ msg)%string, log')
    | (Raise e, log') =>
        (HTTPException 500 ("Search error: " ++ exn_str e)%string, log')
    | (Ok data, log') =>
        match respond data log' with
        | (Ok response, log'') => (Returns response, log'')
        | (Raise e, log'') => (Unhandled e, log'')
        end
    end.

End Program.

(** ** Vocabulary of the properties *)

(** The URL the validator probes for an image URL. *)
Definition proxy_url_of (image_url : string) : string :=
  ("https://images.weserv.nl/?url=" ++ image_url)%string.

(** The content type a probe response advertises, as sent. *)
Definition content_type_of (r : HeadResponse) : string :=
  headers_get (headers r) "content-type" "".

Definition begins_with (s p : string) : Prop :=
  exists rest, s = (p ++ rest)%string.

(** The acceptance test as the service description words it: a status in
    the class of successful answers (2xx) and an advertised content type
    that begins with [image/]. *)
Definition described_ok_class (st : Z) : Prop := (200 <= st <= 299)%Z.

Definition described_accepts (o : ProbeOutcome) : Prop :=
  exists r, o = ProbeReturns r /\ described_ok_class (status r)
            /\ begins_with (content_type_of r) "image/".

(** The acceptance test the validator applies. *)
Definition accepts (o : ProbeOutcome) : Prop :=
  exists r, o = ProbeReturns r /\ status r = 200%Z
            /\ begins_with (Str.lower (content_type_of r)) "image/".

(** The provider's data reaches the handler: the request comes back with a
    status that [raise_for_status] lets pass and a body that parses. *)
Definition upstream_answers (w : World) (log : list event) (params : SearchParams)
    (data : UpstreamData) : Prop :=
  exists r, search_api w log search_url params = GetReturns r
            /\ ((400 <=? status_code r) && (status_code r <? 600))%Z = false
            /\ json r = Ok data.

(** The response model stores a string given for a [str] field as it is. *)
Definition stores_strings (lib : Library) : Prop :=
  forall s, str_field lib (PStr s) = Ok s.

(** The candidates the handler builds from the provider's items, with
    their validation tasks. *)
Definition candidates (lib : Library) (w : World) (its : list Item)
  : list SearchResult * list (M bool) :=
  fold_left (process_item lib w) its ([], []).

Definition search_information (data : UpstreamData) : SearchInformation :=
  get (searchInformation data) {| searchTime := None; totalResults := None |}.

(** Positions increase strictly along a list of indices. *)
Definition increasing (idx : list nat) : Prop := StronglySorted lt idx.

(** The candidates whose validation came out true, in their order, as the
    service description words the result of the batch step. *)
Fixpoint kept_by_outcome {A : Type} (results : list A) (outcomes : list TaskResult)
  : list A :=
  match results, outcomes with
  | r :: results', o :: outcomes' =>
      if is_True o then r :: kept_by_outcome results' outcomes'
      else kept_by_outcome results' outcomes'
  | _, _ => []
  end.

(** The label the handler puts before the text of an upstream error. *)
Definition error_label (e : exn) : string :=
  match e with
  | RequestException _ => "Google Search API error: "
  | OtherException _ => "Search error: "
  end.

(** The ways the request to the provider fails, with the exception the
    handler sees: the request itself raises (network error, timeout), the
    status is a client or server error, or the body does not parse. *)
Inductive upstream_failure (w : World) (log : list event) (params : SearchParams)
  : exn -> Prop :=
| network_error (e : exn) :
    search_api w log search_url params = GetRaises e ->
    upstream_failure w log params e
| http_failure (r : Response) :
    search_api w log search_url params = GetReturns r ->
    (400 <= status_code r < 600)%Z ->
    upstream_failure w log params (RequestException (http_error r))
| body_failure (r : Response) (e : exn) :
    search_api w log search_url params = GetReturns r ->
    ~ (400 <= status_code r < 600)%Z ->
    json r = Raise e ->
    upstream_failure w log params e.

(** A URL scheme: a letter, then letters, digits, [+], [-] and [.] *)
Definition is_scheme (s : string) : bool :=
  match s with
  | String c _ => Str.isalpha_ascii c && Str.all UrlParse.scheme_chars s
  | EmptyString => false
  end.

(** The characters of a host name in a URL: ASCII, none of the delimiters
    [/?#], no bracket, no [@] (user info) and no colon (port), no tab or
    line break. *)
Definition host_char (c : ascii) : bool :=
  Str.isascii_char c && negb (Str.contains c "/?#[]@:")
  && negb (existsb (Str.eqc c) UrlParse.UNSAFE_URL_BYTES_TO_REMOVE).

Definition is_host (a : string) : bool := Str.all host_char a.

(** What follows the host: nothing, or a path, query or fragment. *)
Definition ends_host (rest : string) : bool :=
  match rest with
  | EmptyString => true
  | String c _ => Str.contains c "/?#"
  end.

(** ** Sample inputs *)

(** A library that accepts every network location and stores only strings
    in [str] fields. *)
Definition strict_library : Library := {|
  check_bracketed_netloc := fun _ => true;
  nfkc_netloc_ok := fun _ => true;
  str_field := fun v =>
    match v with
    | PStr s => Ok s
    | _ => Raise (OtherException "Input should be a valid string")
    end
|}.

Definition sample_item (t : string) (link context : option string) : Item :=
  {| item_title := Some t; item_link := link; item_snippet := None;
     item_image := Some {| contextLink := context |}; item_displayLink := None |}.

Definition sample_items : list Item :=
  [ sample_item "a" (Some "http://i/1.png") (Some "https://www.a.com/r");
    sample_item "b" (Some "http://i/2.png") None;
    sample_item "c" (Some "http://i/3.png") (Some "https://c.org/r") ].

Definition sample_response (data : UpstreamData) : Response :=
  {| status_code := 200; http_error := ""; json := Ok data |}.

(** A world whose provider answers [data] and whose proxy answers every
    probe with [probe]. *)
Definition sample_world (data : UpstreamData) (probe : string -> ProbeOutcome)
    (fault : option exn) : World :=
  {| search_api := fun _ _ _ => GetReturns (sample_response data);
     head_probe := fun _ u => probe u;
     gather_fault := fault |}.

Definition png (st : Z) (content_type : string) : ProbeOutcome :=
  ProbeReturns {| status := st; headers := [("Content-Type", content_type)] |}.

(** The proxy serves the first image and has nothing for the others. *)
Definition first_image_only (u : string) : ProbeOutcome :=
  if String.eqb u (proxy_url_of "http://i/1.png") then png 200 "image/png"
  else png 404 "text/html".

Definition sample_information : SearchInformation :=
  {| searchTime := Some (PFloat {| float_str := "0.25"; float_int := Ok 0%Z |});
     totalResults := Some (PStr "12300") |}.

Definition sample_data : UpstreamData :=
  {| items := Some sample_items; searchInformation := Some sample_information |}.

Definition no_data : UpstreamData :=
  {| items := None; searchInformation := None |}.

(** Nothing found, yet a count of five reported. *)
Definition empty_data : UpstreamData :=
  {| items := Some [];
     searchInformation :=
       Some {| searchTime := Some (PStr "0.2"); totalResults := Some (PStr "5") |} |}.

(** Items found, no count reported. *)
Definition uncounted_data : UpstreamData :=
  {| items := Some sample_items; searchInformation := None |}.

Definition failing_world (reply : Reply) : World :=
  {| search_api := fun _ _ _ => reply;
     head_probe := fun _ _ => ProbeRaises (OtherException "unreachable");
     gather_fault := None |}.

Definition sample_search : SearchParams := search_params "q" "k" "cx" 10.

Definition candidate_a : SearchResult :=
  {| title := "a"; url := "https://www.a.com/r"; image := "http://i/1.png";
     source := "a.com"; snippet := Some "" |}.

Definition candidate_b : SearchResult :=
  {| title := "b"; url := "https://b.net/r"; image := "http://i/2.png";
     source := "b.net"; snippet := Some "" |}.

Definition candidate_c : SearchResult :=
  {| title := "c"; url := "https://c.org/r"; image := "http://i/3.png";
     source := "c.org"; snippet := Some "" |}.

(** The proxy serves the first and the third image. *)
Definition all_but_second (u : string) : ProbeOutcome :=
  if String.eqb u (proxy_url_of "http://i/2.png") then png 404 "text/html"
  else png 200 "image/png".

Definition probe_of (r : SearchResult) : event := EvProbe (proxy_url_of (image r)).

Definition service_unavailable : Response :=
  {| status_code := 503;
     http_error := "503 Server Error: Service Unavailable";
     json := Raise (OtherException "Expecting value") |}.

(** ** Vocabulary of the further properties *)

(** The two links the handler needs of an item. *)
Definition context_link (item : Item) : string :=
  get (contextLink (get (item_image item) {| contextLink := None |})) "".

Definition image_link (item : Item) : string := get (item_link item) "".

Definition has_links (item : Item) : bool :=
  Str.truthy (context_link item) && Str.truthy (image_link item).

(** The candidate an item with both links gives. *)
Definition candidate_of (lib : Library) (item : Item) : SearchResult :=
  {| title := get (item_title item) "";
     url := context_link item;
     image := image_link item;
     source := get_domain_name lib (context_link item);
     snippet := Some (get (item_snippet item) "") |}.

(** What the validator makes of the answer to the probe of a candidate's
    image, sent when the log is [log]. *)
Definition verdict (w : World) (log : list event) (r : SearchResult) : bool :=
  match head_probe w log (proxy_url_of (image r)) with
  | ProbeReturns resp =>
      (status resp =? 200)%Z
      && Str.startswith (Str.lower (content_type_of resp)) "image/"
  | ProbeRaises _ => false
  end.

(** The probe of a candidate's image, as logged. *)
Definition image_probe (r : SearchResult) : event :=
  EvProbe (proxy_url_of (image r)).

(** The verdicts on a list of candidates probed one after the other. *)
Fixpoint verdicts (w : World) (log : list event) (rs : list SearchResult)
  : list bool :=
  match rs with
  | [] => []
  | r :: rs' => verdict w log r :: verdicts w (log ++ [image_probe r]) rs'
  end.

(** The proxy answers a probe the same way whatever was sent before. *)
Definition steady_proxy (w : World) : Prop :=
  forall log1 log2 u, head_probe w log1 u = head_probe w log2 u.

(** The characters of a network location: ASCII, none of the delimiters
    [/?#], no bracket, no tab or line break; [@] and the colon are
    allowed, so user info and a port may be part of it. *)
Definition netloc_char (c : ascii) : bool :=
  Str.isascii_char c && negb (Str.contains c "/?#[]")
  && negb (existsb (Str.eqc c) UrlParse.UNSAFE_URL_BYTES_TO_REMOVE).

Definition is_netloc (a : string) : bool := Str.all netloc_char a.

(** No header of the response is named content-type, in any case. *)
Definition no_content_type (r : HeadResponse) : Prop :=
  forall kv, In kv (headers r) -> Str.lower (fst kv) <> "content-type".

(** A provider whose count is not a number. *)
Definition miscounted_data : UpstreamData :=
  {| items := Some sample_items;
     searchInformation :=
       Some {| searchTime := Some (PStr "0.2"); totalResults := Some (PStr "about 5") |} |}.

(** No items, and a search time given as a number. *)
Definition timed_empty_data : UpstreamData :=
  {| items := None;
     searchInformation :=
       Some {| searchTime := Some (PFloat {| float_str := "0.25"; float_int := Ok 0%Z |});
               totalResults := Some (PStr "0") |} |}.

Definition sample_run : World := sample_world sample_data first_image_only None.

(** The response to the sample run: of the two candidates only the first
    has an image the proxy serves. *)
Definition sample_kept : SearchResponse :=
  {| results := [candidate_a]; total_results := 12300; search_time := "0.25" |}.

Definition sample_log : list event :=
  [EvSearch search_url sample_search; probe_of candidate_a; probe_of candidate_c].

(** * Properties *)

(** ** Facts about the string operations *)

Lemma startswith_iff (s p : string) :
  Str.startswith s p = true <-> begins_with s p.
Proof.
  unfold Str.startswith, begins_with. revert s.
  induction p as [|c p IH]; intros s.
  - split; [intros _; now exists s | intros _; destruct s; reflexivity].
  - destruct s as [|d s]; simpl.
    + split; [discriminate | intros [rest H]; discriminate].
    + destruct (Ascii.ascii_dec c d) as [->|ne].
      * rewrite IH. split; intros [rest H]; exists rest; simpl in *; congruence.
      * split; [discriminate | intros [rest H]; simpl in H; congruence].
Qed.

Module StrFacts.
Import Str.

Lemma all_impl (p q : ascii -> bool) (s : string) :
  (forall c, p c = true -> q c = true) -> all p s = true -> all q s = true.
Proof.
  intros Hpq. induction s as [|c s IH]; simpl; [reflexivity|].
  rewrite !andb_true_iff. intros [Hc Hs]. auto.
Qed.

Lemma all_contains (p : ascii -> bool) (s : string) (b : ascii) :
  all p s = true -> p b = false -> contains b s = false.
Proof.
  intros Hs Hb. induction s as [|c s IH]; simpl in *; [reflexivity|].
  apply andb_true_iff in Hs as [Hc Hs]. rewrite (IH Hs), orb_false_r.
  unfold eqc. destruct (Ascii.eqb_spec c b) as [->|]; congruence.
Qed.

Lemma remove_id (b : ascii) (s : string) :
  contains b s = false -> remove b s = s.
Proof.
  induction s as [|c s IH]; simpl; [reflexivity|].
  intros H. apply orb_false_iff in H as [Hc Hs]. now rewrite Hc, IH.
Qed.

Lemma remove_app (b : ascii) (s t : string) :
  remove b (s ++ t) = (remove b s ++ remove b t)%string.
Proof.
  induction s as [|c s IH]; simpl; [reflexivity|].
  destruct (eqc c b); simpl; now rewrite IH.
Qed.

Lemma find_app (c : ascii) (a s : string) :
  contains c a = false ->
  find c (a ++ s) = option_map (Nat.add (String.length a)) (find c s).
Proof.
  induction a as [|d a IH]; simpl.
  - intros _. now destruct (find c s).
  - intros H. apply orb_false_iff in H as [Hd Ha]. rewrite Hd, (IH Ha).
    now destruct (find c s).
Qed.

Lemma take_app (a s : string) : take (String.length a) (a ++ s) = a.
Proof. induction a as [|d a IH]; simpl; [now destruct s | now rewrite IH]. Qed.

Lemma drop_app (a s : string) (n : nat) :
  drop (String.length a + n) (a ++ s) = drop n s.
Proof. induction a as [|d a IH]; simpl; [reflexivity | exact IH]. Qed.

Lemma length_app (a s : string) :
  String.length (a ++ s) = (String.length a + String.length s)%nat.
Proof. induction a as [|d a IH]; simpl; [reflexivity | now rewrite IH]. Qed.

End StrFacts.

(** ** The network location of a URL *)

Module UrlFacts.
Import Str UrlParse StrFacts.

Ltac by_cases_on c :=
  destruct c as [[] [] [] [] [] [] [] []]; vm_compute; intros; congruence.

Lemma alpha_not_C0 (c : ascii) :
  isalpha_ascii c = true -> C0_control_or_space c = false.
Proof. by_cases_on c. Qed.

Lemma alpha_isascii (c : ascii) : isalpha_ascii c = true -> isascii_char c = true.
Proof. by_cases_on c. Qed.

Lemma delimiter_cases (d : ascii) :
  contains d "/?#" = true -> In d ["/"; "?"; "#"]%char.
Proof.
  cbn [contains In]. unfold eqc. rewrite !orb_true_iff, !Ascii.eqb_eq.
  intuition congruence.
Qed.

Lemma delimiter_kept (d b : ascii) :
  contains d "/?#" = true -> In b UNSAFE_URL_BYTES_TO_REMOVE -> eqc d b = false.
Proof.
  intros Hd Hb. apply delimiter_cases in Hd.
  simpl in Hd, Hb.
  destruct Hd as [<-|[<-|[<-|[]]]]; destruct Hb as [<-|[<-|[<-|[]]]]; reflexivity.
Qed.

Lemma ends_host_remove (b : ascii) (rest : string) :
  In b UNSAFE_URL_BYTES_TO_REMOVE ->
  ends_host rest = true -> ends_host (remove b rest) = true.
Proof.
  intros Hb. destruct rest as [|d r]; simpl; [reflexivity|].
  intros Hd. rewrite (delimiter_kept d b Hd Hb). exact Hd.
Qed.

Lemma remove_url (b : ascii) (scheme host rest : string) :
  In b UNSAFE_URL_BYTES_TO_REMOVE ->
  all scheme_chars scheme = true ->
  is_host host = true ->
  remove b (scheme ++ "://" ++ host ++ rest)
  = (scheme ++ "://" ++ host ++ remove b rest)%string.
Proof.
  intros Hb Hs Ha.
  assert (Hsb : scheme_chars b = false /\ host_char b = false
                /\ contains b "://" = false).
  { simpl in Hb. destruct Hb as [<-|[<-|[<-|[]]]]; repeat split; reflexivity. }
  destruct Hsb as (H1 & H2 & H3).
  rewrite !remove_app.
  rewrite (remove_id b scheme (all_contains _ _ _ Hs H1)).
  rewrite (remove_id b "://" H3).
  now rewrite (remove_id b host (all_contains _ _ _ Ha H2)).
Qed.

Lemma sanitize_url (scheme host rest : string) :
  is_scheme scheme = true ->
  is_host host = true ->
  ends_host rest = true ->
  exists rest',
    sanitize (scheme ++ "://" ++ host ++ rest)
    = (scheme ++ "://" ++ host ++ rest')%string
    /\ ends_host rest' = true.
Proof.
  intros Hs Ha Hr.
  destruct scheme as [|c0 sch]; [discriminate|].
  apply andb_true_iff in Hs as [Hc0 Hall].
  exists (remove (ascii_of_nat 10) (remove (ascii_of_nat 13) (remove (ascii_of_nat 9) rest))).
  split.
  - unfold sanitize.
    change ((String c0 sch ++ "://" ++ host ++ rest)%string)
      with (String c0 (sch ++ "://" ++ host ++ rest)%string).
    cbn [lstrip]. rewrite (alpha_not_C0 c0 Hc0).
    change (String c0 (sch ++ "://" ++ host ++ rest)%string)
      with ((String c0 sch ++ "://" ++ host ++ rest)%string).
    cbn [fold_left UNSAFE_URL_BYTES_TO_REMOVE].
    rewrite !remove_url; try assumption; simpl; tauto.
  - repeat apply ends_host_remove; simpl; tauto.
Qed.

Lemma scheme_no_colon (scheme : string) :
  all scheme_chars scheme = true -> contains ":" scheme = false.
Proof. intros H. now apply (all_contains _ _ _ H). Qed.

Lemma after_scheme_url (scheme x : string) :
  is_scheme scheme = true ->
  after_scheme (scheme ++ String ":" x) = x.
Proof.
  intros Hs. destruct scheme as [|c0 sch]; [discriminate|].
  apply andb_true_iff in Hs as [Hc0 Hall].
  assert (Hfind : find ":" (String c0 sch ++ String ":" x) = Some (S (String.length sch))).
  { rewrite (find_app _ _ _ (scheme_no_colon _ Hall)). cbn.
    now rewrite Nat.add_0_r. }
  unfold after_scheme. rewrite Hfind.
  change ((String c0 sch ++ String ":" x)%string)
    with (String c0 (sch ++ String ":" x)%string).
  cbv iota beta.
  change (String c0 (sch ++ String ":" x)%string)
    with ((String c0 sch ++ String ":" x)%string).
  change (S (String.length sch)) with (String.length (String c0 sch)).
  rewrite take_app, Hall, (alpha_isascii c0 Hc0), Hc0. cbn [andb].
  now rewrite drop_app.
Qed.

Lemma fold_min (f : ascii -> option nat) (cs : list ascii) (init lo : nat) :
  (lo <= init)%nat ->
  (forall c k, In c cs -> f c = Some k -> (lo <= k)%nat) ->
  (exists c, In c cs /\ f c = Some lo) \/ init = lo ->
  fold_left (fun delim c => match f c with
                            | Some wdelim => Nat.min delim wdelim
                            | None => delim
                            end) cs init = lo.
Proof.
  revert init. induction cs as [|c cs IH]; intros init Hinit Hlo Hex; simpl.
  - destruct Hex as [(c & [] & _)|H]; assumption.
  - apply IH.
    + destruct (f c) as [k|] eqn:E; [|assumption].
      specialize (Hlo c k (or_introl eq_refl) E). lia.
    + intros c' k Hc'. apply Hlo. now right.
    + destruct Hex as [(c' & [<-|Hin] & Hc')|H].
      * right. rewrite Hc'. lia.
      * left. now exists c'.
      * right. subst init. destruct (f c) as [k|] eqn:E; [|reflexivity].
        specialize (Hlo c k (or_introl eq_refl) E). lia.
Qed.

Lemma host_no_delimiter (host : string) (c : ascii) :
  is_host host = true -> contains c "/?#[]@:" = true ->
  contains c host = false.
Proof.
  intros Ha Hc. apply (all_contains _ _ _ Ha).
  unfold host_char. rewrite Hc. cbn. now rewrite andb_false_r.
Qed.

Lemma splitnetloc_url (host rest : string) :
  is_host host = true ->
  ends_host rest = true ->
  fst (splitnetloc (String "/" (String "/" (host ++ rest))) 2) = host.
Proof.
  intros Ha Hr. unfold splitnetloc. cbn [fst].
  set (url := String "/" (String "/" (host ++ rest))).
  assert (Hf : forall c, In c ["/"; "?"; "#"]%char ->
               find_from c 2 url
               = option_map (fun k => 2 + (String.length host + k))%nat (find c rest)).
  { intros c Hc. unfold find_from, url. cbn [drop].
    rewrite find_app.
    - now destruct (find c rest).
    - apply host_no_delimiter; [assumption|].
      cbn in Hc. destruct Hc as [<-|[<-|[<-|[]]]]; reflexivity. }
  rewrite (fold_min (fun c => find_from c 2 url) _ _ (2 + String.length host)).
  - unfold slice, url. cbn [drop].
    replace (2 + String.length host - 2)%nat with (String.length host) by lia.
    apply take_app.
  - unfold url. cbn [String.length]. rewrite length_app. lia.
  - intros c k Hc Hk. rewrite (Hf c Hc) in Hk.
    destruct (find c rest); [|discriminate]. injection Hk as <-. lia.
  - destruct rest as [|d r].
    + right. unfold url. cbn [String.length]. rewrite length_app. cbn. lia.
    + left. exists d. pose proof (delimiter_cases d Hr) as Hd.
      split; [assumption|]. rewrite (Hf d Hd). cbn [find].
      unfold eqc. rewrite Ascii.eqb_refl. cbn. f_equal. lia.
Qed.

Lemma checked_netloc_host (lib : Library) (host : string) :
  is_host host = true ->
  checked_netloc lib host = Ok host.
Proof.
  intros Ha. unfold checked_netloc, checknetloc.
  rewrite (host_no_delimiter host "[" Ha eq_refl).
  rewrite (host_no_delimiter host "]" Ha eq_refl).
  assert (Hascii : isascii host = true).
  { revert Ha. apply all_impl. intros c Hc. unfold host_char in Hc.
    now apply andb_true_iff in Hc as [Hc _]; apply andb_true_iff in Hc as [Hc _]. }
  rewrite Hascii, orb_true_r. reflexivity.
Qed.

Lemma urlsplit_netloc_url (lib : Library) (scheme host rest : string) :
  is_scheme scheme = true ->
  is_host host = true ->
  ends_host rest = true ->
  urlsplit_netloc lib (scheme ++ "://" ++ host ++ rest) = Ok host.
Proof.
  intros Hs Ha Hr.
  destruct (sanitize_url scheme host rest Hs Ha Hr) as (rest' & Hsan & Hr').
  unfold urlsplit_netloc. rewrite Hsan.
  change ((scheme ++ "://" ++ host ++ rest')%string)
    with ((scheme ++ String ":" (String "/" (String "/" (host ++ rest'))))%string).
  rewrite (after_scheme_url _ _ Hs).
  cbn [take String.eqb Ascii.eqb Bool.eqb].
  rewrite (splitnetloc_url host rest' Ha Hr').
  now apply checked_netloc_host.
Qed.

Lemma lower_char_idem (c : ascii) : lower_char (lower_char c) = lower_char c.
Proof. destruct c as [[] [] [] [] [] [] [] []]; reflexivity. Qed.

Lemma lower_idem (s : string) : lower (lower s) = lower s.
Proof.
  induction s as [|c s IH]; simpl; [reflexivity|].
  now rewrite lower_char_idem, IH.
Qed.

Lemma lower_drop (n : nat) (s : string) : lower (drop n s) = drop n (lower s).
Proof.
  revert s. induction n as [|n IH]; intros [|c s]; simpl; auto.
Qed.

End UrlFacts.

(** ** The image validator *)

(** What the validator does with a URL that is not empty: one probe, and
    the verdict read off the answer. *)
Lemma validate_image_url_probe (w : World) (image_url : string) (log : list event) :
  image_url <> "" ->
  validate_image_url w (Some image_url) log =
    (Ok match head_probe w log (proxy_url_of image_url) with
        | ProbeReturns r =>
            (status r =? 200)%Z && Str.startswith (Str.lower (content_type_of r)) "image/"
        | ProbeRaises _ => false
        end,
     log ++ [EvProbe (proxy_url_of image_url)]).
Proof.
  intros Hne. unfold validate_image_url.
  destruct image_url as [|c s]; [contradiction|].
  cbn [Str.truthy negb].
  unfold try_except, bind, session_head, proxy_url_of, content_type_of, ret.
  destruct (head_probe w log _) as [e|r]; [reflexivity|].
  destruct (status r =? 200)%Z; reflexivity.
Qed.

Lemma validate_image_url_total (w : World) (image_url : option string) (log : list event) :
  exists b log', validate_image_url w image_url log = (Ok b, log').
Proof.
  destruct image_url as [u|]; [|now exists false, log].
  destruct u as [|c s]; [now exists false, log|].
  rewrite validate_image_url_probe by discriminate. eauto.
Qed.

(** C6: for an empty or an absent image URL the validator returns false and
    the log of requests is left as it was: no probe is issued. *)
Theorem validate_image_url_empty (w : World) (log : list event) :
  validate_image_url w None log = (Ok false, log)
  /\ validate_image_url w (Some "") log = (Ok false, log).
Proof. split; reflexivity. Qed.

(** C10: when the probe is answered, the validator returns true only if the
    status is exactly 200; on any other status, 204 and the other 2xx
    included, it returns false whatever the content type says. *)
Theorem validate_image_url_only_200 (w : World) (image_url : string)
    (log : list event) (r : HeadResponse) :
  head_probe w log (proxy_url_of image_url) = ProbeReturns r ->
  (fst (validate_image_url w (Some image_url) log) = Ok true -> status r = 200%Z)
  /\ (status r <> 200%Z -> fst (validate_image_url w (Some image_url) log) = Ok false).
Proof.
  intros Hp.
  destruct image_url as [|c s]; [split; [discriminate | reflexivity]|].
  rewrite validate_image_url_probe by discriminate. rewrite Hp. cbn [fst].
  destruct (Z.eqb_spec (status r) 200) as [E|NE]; cbn [andb].
  - split; [intros _; exact E | intros H; contradiction].
  - split; [discriminate | reflexivity].
Qed.

Lemma validate_image_url_only_200_witness :
  fst (validate_image_url (sample_world {| items := None; searchInformation := None |}
                                        (fun _ => png 204 "image/png") None)
                          (Some "http://i/1.png") []) = Ok false.
Proof.
  apply (validate_image_url_only_200 _ "http://i/1.png" []
           {| status := 204; headers := [("Content-Type", "image/png")] |}).
  - reflexivity.
  - discriminate.
Defined.

(** C2, as the validator has it: for a URL that is not empty the validator
    issues one probe and returns, without raising, true if and only if the
    probe is answered with status exactly 200 and a content type that, put
    in lower case, begins with [image/]; every other answer, and every
    exception of the probe, gives false. *)
Theorem validate_image_url_iff (w : World) (image_url : string) (log : list event) :
  image_url <> "" ->
  exists b,
    validate_image_url w (Some image_url) log
      = (Ok b, log ++ [EvProbe (proxy_url_of image_url)])
    /\ (b = true <-> accepts (head_probe w log (proxy_url_of image_url))).
Proof.
  intros Hne. rewrite validate_image_url_probe by assumption.
  eexists; split; [reflexivity|].
  unfold accepts.
  destruct (head_probe w log _) as [e|r].
  - split; [discriminate | intros (r & H & _); discriminate].
  - rewrite andb_true_iff, Z.eqb_eq, startswith_iff. split.
    + intros [Hs Hc]. now exists r.
    + intros (r' & H & Hs & Hc). injection H as <-. now split.
Qed.

Lemma validate_image_url_iff_witness :
  exists b,
    validate_image_url (sample_world {| items := None; searchInformation := None |}
                                     first_image_only None)
                       (Some "http://i/1.png") []
      = (Ok b, [EvProbe (proxy_url_of "http://i/1.png")])
    /\ (b = true <-> accepts (first_image_only (proxy_url_of "http://i/1.png"))).
Proof.
  apply (validate_image_url_iff
           (sample_world {| items := None; searchInformation := None |}
                         first_image_only None) "http://i/1.png" []).
  discriminate.
Defined.

(** C2 as stated fails in both directions: a 204 answer with content type
    [image/png] is in the class of successful answers and advertises an
    image, yet the validator returns false; a 200 answer advertising
    [Image/PNG] does not begin with [image/] as sent, yet the validator
    returns true. *)
Lemma validate_image_url_not_described :
  (described_accepts (png 204 "image/png")
   /\ fst (validate_image_url (sample_world {| items := None; searchInformation := None |}
                                            (fun _ => png 204 "image/png") None)
                              (Some "http://i/1.png") []) = Ok false)
  /\ (~ described_accepts (png 200 "Image/PNG")
      /\ fst (validate_image_url (sample_world {| items := None; searchInformation := None |}
                                               (fun _ => png 200 "Image/PNG") None)
                                 (Some "http://i/1.png") []) = Ok true).
Proof.
  split; split.
  - eexists; split; [reflexivity|]. split.
    + unfold described_ok_class; cbn; lia.
    + now exists "png".
  - reflexivity.
  - intros (r & H & _ & rest & Hc). injection H as <-.
    cbv in Hc. discriminate.
  - reflexivity.
Qed.

(** ** The batch validation step *)

Lemma is_True_iff (o : TaskResult) : is_True o = true <-> o = Returned true.
Proof.
  destruct o as [[|]|e]; simpl; split; congruence.
Qed.

Lemma keep_validated_eq (results : list SearchResult) (outcomes : list TaskResult) :
  keep_validated results outcomes = kept_by_outcome results outcomes.
Proof.
  unfold keep_validated.
  enough (H : forall acc,
             fold_left
               (fun validated_results '(result, is_valid) =>
                  if is_True is_valid then validated_results ++ [result]
                  else validated_results)
               (combine results outcomes) acc
             = acc ++ kept_by_outcome results outcomes) by apply (H []).
  revert outcomes.
  induction results as [|r rs IH]; intros [|o os] acc; simpl;
    try (now rewrite app_nil_r).
  rewrite IH. destruct (is_True o); [now rewrite <- app_assoc | reflexivity].
Qed.

Lemma StronglySorted_map_S (idx : list nat) :
  StronglySorted lt idx -> StronglySorted lt (map S idx).
Proof.
  induction 1 as [|a l Hl IH Ha]; simpl; constructor; [assumption|].
  rewrite Forall_map. revert Ha. apply Forall_impl. intros; lia.
Qed.

Lemma kept_by_outcome_indices {A : Type} (results : list A) (outcomes : list TaskResult) :
  exists idx,
    map Some (kept_by_outcome results outcomes) = map (nth_error results) idx
    /\ increasing idx
    /\ (forall i, In i idx <->
                  (i < List.length results)%nat
                  /\ nth_error outcomes i = Some (Returned true)).
Proof.
  revert outcomes.
  induction results as [|r rs IH]; intros outcomes.
  - exists []. split; [reflexivity|]. split; [constructor|].
    intros i; simpl. split; [tauto | intros [Hlt _]; lia].
  - destruct outcomes as [|o os].
    + exists []. split; [reflexivity|]. split; [constructor|].
      intros i; simpl. split; [tauto | intros [_ Hn]; destruct i; discriminate].
    + destruct (IH os) as (idx & Hm & Hs & Hi).
      assert (Hmap : map (nth_error (r :: rs)) (map S idx) = map (nth_error rs) idx)
        by (rewrite map_map; reflexivity).
      assert (HinS : forall k, In (S k) (map S idx) <->
                (S k < S (List.length rs))%nat /\ nth_error os k = Some (Returned true)).
      { intros k. rewrite in_map_iff. split.
        - intros (k' & E & Hk). injection E as ->. apply Hi in Hk. split; [lia | tauto].
        - intros [Hlt Hn]. exists k. split; [reflexivity|]. apply Hi. split; [lia | assumption]. }
      assert (Hin0 : ~ In 0%nat (map S idx))
        by (rewrite in_map_iff; intros (k & E & _); discriminate).
      simpl. destruct (is_True o) eqn:Ho.
      * exists (0%nat :: map S idx). split; [|split].
        -- simpl. now rewrite Hmap, Hm.
        -- constructor; [now apply StronglySorted_map_S|].
           rewrite Forall_map, Forall_forall. intros; lia.
        -- intros [|k]; simpl.
           ++ apply is_True_iff in Ho. subst o. split; [intros _; split; [lia | reflexivity] | now left].
           ++ rewrite <- HinS. split; [intros [E|H]; [discriminate | exact H] | now right].
      * exists (map S idx). split; [|split].
        -- now rewrite Hmap, Hm.
        -- now apply StronglySorted_map_S.
        -- intros [|k]; simpl.
           ++ split; [intros H; contradiction|].
              intros [_ E]. injection E as ->. discriminate.
           ++ apply HinS.
Qed.

Lemma run_tasks_length (tasks : list (M bool)) (log : list event) :
  List.length (fst (run_tasks tasks log)) = List.length tasks.
Proof.
  revert log. induction tasks as [|t ts IH]; intros log; simpl; [reflexivity|].
  destruct (t log) as [r log1]. specialize (IH log1).
  destruct (run_tasks ts log1) as [rs log2]. simpl in *. now rewrite IH.
Qed.

Lemma validate_all_no_fault (w : World) (results : list SearchResult)
    (tasks : list (M bool)) (log : list event) :
  gather_fault w = None ->
  validate_all w results tasks log
    = (Ok (kept_by_outcome results (fst (run_tasks tasks log))),
       snd (run_tasks tasks log)).
Proof.
  intros Hf. unfold validate_all, try_except, bind, gather, ret. rewrite Hf.
  destruct (run_tasks tasks log) as [rs log']. now rewrite keep_validated_eq.
Qed.

(** In the handler every candidate comes with one task, the validation of
    its image. *)
Lemma candidates_tasks (lib : Library) (w : World) (its : list Item) :
  snd (candidates lib w its)
  = map (fun r => validate_image_url w (Some (image r))) (fst (candidates lib w its)).
Proof.
  unfold candidates.
  enough (H : forall acc,
             snd acc = map (fun r => validate_image_url w (Some (image r))) (fst acc) ->
             snd (fold_left (process_item lib w) its acc)
             = map (fun r => validate_image_url w (Some (image r)))
                   (fst (fold_left (process_item lib w) its acc)))
    by (apply H; reflexivity).
  induction its as [|it its IH]; intros [rs ts] Hacc; simpl in *; [assumption|].
  apply IH. unfold process_item.
  destruct (negb _ || negb _); simpl; [assumption|].
  rewrite map_app, Hacc. reflexivity.
Qed.

(** C1: when the join of the tasks does not fail, the batch step returns
    the candidates at the positions whose validation came out true, each
    once and in the original order; a task that ended with an exception
    or with false contributes nothing.  For three candidates with outcomes
    true, false, true it returns the first and the third.  The handler
    gives the batch step one task for each candidate. *)
Theorem validate_all_keeps_valid (w : World) (results : list SearchResult)
    (tasks : list (M bool)) (log log' : list event) (outcomes : list TaskResult) :
  gather_fault w = None ->
  run_tasks tasks log = (outcomes, log') ->
  List.length tasks = List.length results ->
  (exists kept idx,
      validate_all w results tasks log = (Ok kept, log')
      /\ map Some kept = map (nth_error results) idx
      /\ increasing idx
      /\ (forall i, In i idx <-> nth_error outcomes i = Some (Returned true)))
  /\ (forall c1 c2 c3 e,
        keep_validated [c1; c2; c3] [Returned true; Returned false; Returned true]
          = [c1; c3]
        /\ keep_validated [c1; c2; c3] [Returned true; Raised e; Returned true]
          = [c1; c3])
  /\ (forall lib its,
        List.length (snd (candidates lib w its))
        = List.length (fst (candidates lib w its))).
Proof.
  intros Hf Hr Hlen. split; [|split; [intros; split; reflexivity|]].
  2: { intros lib its. rewrite candidates_tasks. apply length_map. }
  rewrite (validate_all_no_fault w results tasks log Hf), Hr. cbn [fst snd].
  destruct (kept_by_outcome_indices results outcomes) as (idx & Hm & Hs & Hi).
  exists (kept_by_outcome results outcomes), idx.
  repeat split; try assumption.
  - intros H. now apply Hi in H.
  - intros H. apply Hi. split; [|assumption].
    assert (Hlo : List.length outcomes = List.length tasks)
      by (rewrite <- (run_tasks_length tasks log), Hr; reflexivity).
    rewrite <- Hlen, <- Hlo. apply nth_error_Some. congruence.
Qed.

Lemma validate_all_fault (w : World) (results : list SearchResult)
    (tasks : list (M bool)) (log : list event) (e : exn) :
  gather_fault w = Some e ->
  validate_all w results tasks log = (Ok results, log).
Proof.
  intros Hf. unfold validate_all, try_except, bind, gather, ret. now rewrite Hf.
Qed.

Lemma validate_all_total (w : World) (results : list SearchResult)
    (tasks : list (M bool)) (log : list event) :
  exists kept log', validate_all w results tasks log = (Ok kept, log').
Proof.
  destruct (gather_fault w) as [e|] eqn:Hf.
  - rewrite (validate_all_fault w results tasks log e Hf). eauto.
  - rewrite (validate_all_no_fault w results tasks log Hf). eauto.
Qed.

(** ** The request handler *)

Lemma fetch_answers (w : World) (log : list event) (params : SearchParams)
    (data : UpstreamData) :
  upstream_answers w log params data ->
  fetch w params log = (Ok data, log ++ [EvSearch search_url params]).
Proof.
  intros (r & Hr & Hs & Hj).
  unfold fetch, bind, requests_get, raise_for_status, lift, ret.
  now rewrite Hr, Hs, Hj.
Qed.

Lemma respond_items (lib : Library) (w : World) (data : UpstreamData)
    (it : Item) (its : list Item) (log : list event) :
  stores_strings lib ->
  get (items data) [] = it :: its ->
  exists kept log',
    validate_all w (fst (candidates lib w (it :: its)))
                 (snd (candidates lib w (it :: its))) log = (Ok kept, log')
    /\ respond lib w data log =
       match py_int (get (totalResults (search_information data))
                         (PInt (Z.of_nat (List.length kept)))) with
       | Ok n =>
           (Ok {| results := kept; total_results := n;
                  search_time :=
                    py_str (get (searchTime (search_information data)) (PStr "0")) |},
            log')
       | Raise e => (Raise e, log')
       end.
Proof.
  intros Hlib Hit.
  destruct (validate_all_total w (fst (candidates lib w (it :: its)))
              (snd (candidates lib w (it :: its))) log) as (kept & log' & Hv).
  exists kept, log'. split; [assumption|].
  unfold respond. rewrite Hit. fold (search_information data).
  fold (candidates lib w (it :: its)).
  destruct (candidates lib w (it :: its)) as [rs ts]. cbn [fst snd] in Hv.
  unfold bind at 1. rewrite Hv.
  unfold bind, lift, new_SearchResponse.
  destruct (py_int _) as [n|e]; [|reflexivity].
  unfold bind, lift, ret. now rewrite Hlib.
Qed.

(** The handler on a list of items that is not empty: the candidates go
    through the batch step, and the response is built from what is kept. *)
Lemma search_recipes_items (lib : Library) (w : World) (q key cx : string) (num : Z)
    (log : list event) (data : UpstreamData) (it : Item) (its : list Item) :
  stores_strings lib ->
  upstream_answers w log (search_params q key cx num) data ->
  get (items data) [] = it :: its ->
  exists kept log',
    validate_all w (fst (candidates lib w (it :: its)))
                 (snd (candidates lib w (it :: its)))
                 (log ++ [EvSearch search_url (search_params q key cx num)])
      = (Ok kept, log')
    /\ search_recipes lib w q key cx num log =
       match py_int (get (totalResults (search_information data))
                         (PInt (Z.of_nat (List.length kept)))) with
       | Ok n =>
           (Returns {| results := kept; total_results := n;
                       search_time :=
                         py_str (get (searchTime (search_information data)) (PStr "0")) |},
            log')
       | Raise e => (Unhandled e, log')
       end.
Proof.
  intros Hlib Hup Hit.
  destruct (respond_items lib w data it its
              (log ++ [EvSearch search_url (search_params q key cx num)]) Hlib Hit)
    as (kept & log' & Hv & Hr).
  exists kept, log'. split; [assumption|].
  unfold search_recipes. rewrite (fetch_answers _ _ _ _ Hup), Hr.
  now destruct (py_int _).
Qed.

(** C3, as the handler has it: in every response built from a list of
    items that is not empty, the search time is the text of the time the
    provider reported (["0"] when it reported none) and, when the provider
    reported a count, the total is that count as an integer, while the
    results are what the batch step kept, however few. *)
Theorem search_recipes_reports_upstream (lib : Library) (w : World)
    (q key cx : string) (num : Z) (log log' : list event) (data : UpstreamData)
    (it : Item) (its : list Item) (resp : SearchResponse) :
  stores_strings lib ->
  upstream_answers w log (search_params q key cx num) data ->
  get (items data) [] = it :: its ->
  search_recipes lib w q key cx num log = (Returns resp, log') ->
  search_time resp = py_str (get (searchTime (search_information data)) (PStr "0"))
  /\ (forall v, totalResults (search_information data) = Some v ->
                py_int v = Ok (total_results resp))
  /\ validate_all w (fst (candidates lib w (it :: its)))
                  (snd (candidates lib w (it :: its)))
                  (log ++ [EvSearch search_url (search_params q key cx num)])
     = (Ok (results resp), log').
Proof.
  intros Hlib Hup Hit Hs.
  destruct (search_recipes_items lib w q key cx num log data it its Hlib Hup Hit)
    as (kept & l & Hv & Hr).
  rewrite Hr in Hs.
  destruct (py_int _) as [n|e] eqn:Hn; [|discriminate].
  injection Hs as <- <-. cbn [search_time total_results results].
  repeat split; [|assumption].
  intros v Hv'. rewrite Hv' in Hn. exact Hn.
Qed.

(** C9: when the list of items is not empty and the provider reports no
    count, the handler returns a response whose total is the number of
    results in it, the results that are left after filtering. *)
Theorem search_recipes_total_default (lib : Library) (w : World)
    (q key cx : string) (num : Z) (log : list event) (data : UpstreamData)
    (it : Item) (its : list Item) :
  stores_strings lib ->
  upstream_answers w log (search_params q key cx num) data ->
  get (items data) [] = it :: its ->
  totalResults (search_information data) = None ->
  exists resp log',
    search_recipes lib w q key cx num log = (Returns resp, log')
    /\ total_results resp = Z.of_nat (List.length (results resp))
    /\ validate_all w (fst (candidates lib w (it :: its)))
                    (snd (candidates lib w (it :: its)))
                    (log ++ [EvSearch search_url (search_params q key cx num)])
       = (Ok (results resp), log').
Proof.
  intros Hlib Hup Hit Hnone.
  destruct (search_recipes_items lib w q key cx num log data it its Hlib Hup Hit)
    as (kept & l & Hv & Hr).
  rewrite Hnone in Hr. cbn [get py_int] in Hr.
  eexists; eexists; split; [exact Hr|]. split; [reflexivity | exact Hv].
Qed.

(** X12: when the provider returns no items (an empty list, or none at
    all) and the response model accepts the search time as it was
    received, the handler returns at once a response with no results and
    a total of zero, and the only request it has sent is the search: no
    probe is issued. *)
Theorem search_recipes_empty (lib : Library) (w : World)
    (q key cx : string) (num : Z) (log : list event) (data : UpstreamData)
    (st : string) :
  upstream_answers w log (search_params q key cx num) data ->
  get (items data) [] = [] ->
  str_field lib (get (searchTime (search_information data)) (PStr "0")) = Ok st ->
  search_recipes lib w q key cx num log
    = (Returns {| results := []; total_results := 0; search_time := st |},
       log ++ [EvSearch search_url (search_params q key cx num)])
  /\ filter is_probe (snd (search_recipes lib w q key cx num log))
     = filter is_probe log.
Proof.
  intros Hup Hit Hst.
  assert (H : search_recipes lib w q key cx num log
              = (Returns {| results := []; total_results := 0; search_time := st |},
                 log ++ [EvSearch search_url (search_params q key cx num)])).
  { unfold search_recipes. rewrite (fetch_answers _ _ _ _ Hup).
    unfold respond. rewrite Hit. fold (search_information data).
    unfold new_SearchResponse, bind, lift, ret. now rewrite Hst. }
  split; [exact H|].
  rewrite H. cbn [snd]. rewrite filter_app. cbn. apply app_nil_r.
Qed.

(** C7: the handler does not return an empty response when the provider
    returns no items and gives its search time as a number: the value
    reaches the response model without [str], a model that stores only
    strings rejects it, and the handler ends with the validation error,
    unhandled, after the search request.  On the path with items the same
    search time is turned into text and returned. *)
Lemma search_recipes_empty_numeric_time :
  (exists e,
     search_recipes strict_library (sample_world timed_empty_data first_image_only None)
                    "q" "k" "cx" 10 []
     = (Unhandled e, [EvSearch search_url sample_search]))
  /\ searchTime (search_information timed_empty_data)
     = searchTime (search_information sample_data)
  /\ exists resp,
       fst (search_recipes strict_library sample_run "q" "k" "cx" 10 []) = Returns resp
       /\ search_time resp = "0.25".
Proof.
  split; [|split].
  - eexists. reflexivity.
  - reflexivity.
  - exists sample_kept. split; reflexivity.
Qed.

(** C8: when the request to the provider fails (network error, HTTP error
    status, unreadable body), the handler fails with an HTTP 500 error
    whose detail is a label followed by the text of the upstream error,
    and the log holds the one search request: nothing is sent again. *)
Theorem search_recipes_upstream_failure (lib : Library) (w : World)
    (q key cx : string) (num : Z) (log : list event) (e : exn) :
  upstream_failure w log (search_params q key cx num) e ->
  search_recipes lib w q key cx num log
    = (HTTPException 500 (error_label e ++ exn_str e)%string,
       log ++ [EvSearch search_url (search_params q key cx num)])
  /\ List.length (filter is_search (snd (search_recipes lib w q key cx num log)))
     = S (List.length (filter is_search log)).
Proof.
  intros Hf.
  assert (H : fetch w (search_params q key cx num) log
              = (Raise e, log ++ [EvSearch search_url (search_params q key cx num)])).
  { unfold fetch, bind, requests_get, raise_for_status, lift, ret.
    destruct Hf as [e He | r Hr Hs | r e Hr Hs Hj].
    - now rewrite He.
    - rewrite Hr.
      replace ((400 <=? status_code r) && (status_code r <? 600))%Z with true
        by (symmetry; apply andb_true_iff; split; [apply Z.leb_le | apply Z.ltb_lt]; lia).
      reflexivity.
    - rewrite Hr.
      replace ((400 <=? status_code r) && (status_code r <? 600))%Z with false.
      + now rewrite Hj.
      + symmetry. apply not_true_is_false. intros Ht.
        apply andb_true_iff in Ht as [H1 H2].
        apply Z.leb_le in H1. apply Z.ltb_lt in H2. apply Hs. lia. }
  assert (Hs : search_recipes lib w q key cx num log
               = (HTTPException 500 (error_label e ++ exn_str e)%string,
                  log ++ [EvSearch search_url (search_params q key cx num)])).
  { unfold search_recipes. rewrite H. now destruct e. }
  split; [exact Hs|].
  rewrite Hs. cbn [snd]. rewrite filter_app, length_app. cbn. lia.
Qed.

(** C4: when the join of the tasks raises by itself, the batch step
    returns all the candidates it was given, unfiltered; and a response
    the handler then builds carries every candidate. *)
Theorem validate_all_fallback (lib : Library) (w : World) (e : exn) :
  gather_fault w = Some e ->
  (forall results tasks log, validate_all w results tasks log = (Ok results, log))
  /\ (forall q key cx num log log' data it its resp,
        stores_strings lib ->
        upstream_answers w log (search_params q key cx num) data ->
        get (items data) [] = it :: its ->
        search_recipes lib w q key cx num log = (Returns resp, log') ->
        results resp = fst (candidates lib w (it :: its))).
Proof.
  intros Hf. split.
  - intros. now apply validate_all_fault with (e := e).
  - intros q key cx num log log' data it its resp Hlib Hup Hit Hs.
    destruct (search_recipes_items lib w q key cx num log data it its Hlib Hup Hit)
      as (kept & l & Hv & Hr).
    rewrite (validate_all_fault w _ _ _ e Hf) in Hv. injection Hv as <- <-.
    rewrite Hr in Hs. destruct (py_int _); [|discriminate].
    now injection Hs as <- _.
Qed.

(** ** The properties on the sample inputs *)

Lemma strict_library_stores_strings : stores_strings strict_library.
Proof. intros s. reflexivity. Defined.

Lemma sample_world_answers (data : UpstreamData) (probe : string -> ProbeOutcome)
    (fault : option exn) (log : list event) (params : SearchParams) :
  upstream_answers (sample_world data probe fault) log params data.
Proof. exists (sample_response data). repeat split. Defined.

Lemma validate_all_keeps_valid_witness :
  exists kept idx,
    validate_all (sample_world no_data all_but_second None)
      [candidate_a; candidate_b; candidate_c]
      (map (fun r => validate_image_url (sample_world no_data all_but_second None)
                                        (Some (image r)))
           [candidate_a; candidate_b; candidate_c]) []
    = (Ok kept, map probe_of [candidate_a; candidate_b; candidate_c])
    /\ map Some kept = map (nth_error [candidate_a; candidate_b; candidate_c]) idx
    /\ increasing idx
    /\ (forall i, In i idx <->
                  nth_error [Returned true; Returned false; Returned true] i
                  = Some (Returned true)).
Proof.
  apply (validate_all_keeps_valid
           (sample_world no_data all_but_second None)
           [candidate_a; candidate_b; candidate_c]
           (map (fun r => validate_image_url (sample_world no_data all_but_second None)
                                             (Some (image r)))
                [candidate_a; candidate_b; candidate_c])
           [] (map probe_of [candidate_a; candidate_b; candidate_c])
           [Returned true; Returned false; Returned true]);
    reflexivity.
Defined.

Lemma validate_all_fallback_witness :
  validate_all (sample_world sample_data first_image_only (Some (OtherException "join failed")))
    [candidate_a; candidate_c] [] [] = (Ok [candidate_a; candidate_c], []).
Proof.
  apply (validate_all_fallback strict_library
           (sample_world sample_data first_image_only (Some (OtherException "join failed")))
           (OtherException "join failed")).
  reflexivity.
Defined.

Lemma search_recipes_reports_upstream_witness :
  search_time {| results := [candidate_a]; total_results := 12300; search_time := "0.25" |}
    = py_str (get (searchTime (search_information sample_data)) (PStr "0"))
  /\ py_int (PStr "12300") = Ok 12300%Z.
Proof.
  destruct (search_recipes_reports_upstream strict_library
              (sample_world sample_data first_image_only None) "q" "k" "cx" 10 []
              [EvSearch search_url sample_search; probe_of candidate_a; probe_of candidate_c]
              sample_data
              (sample_item "a" (Some "http://i/1.png") (Some "https://www.a.com/r"))
              (tl sample_items)
              {| results := [candidate_a]; total_results := 12300; search_time := "0.25" |}
              strict_library_stores_strings
              (sample_world_answers _ _ _ _ _) eq_refl eq_refl)
    as (Ht & Hn & _).
  split; [exact Ht | exact (Hn (PStr "12300") eq_refl)].
Defined.

Lemma search_recipes_total_default_witness :
  exists resp log',
    search_recipes strict_library (sample_world uncounted_data first_image_only None)
                   "q" "k" "cx" 10 [] = (Returns resp, log')
    /\ total_results resp = Z.of_nat (List.length (results resp))
    /\ validate_all (sample_world uncounted_data first_image_only None)
         (fst (candidates strict_library (sample_world uncounted_data first_image_only None)
                          sample_items))
         (snd (candidates strict_library (sample_world uncounted_data first_image_only None)
                          sample_items))
         ([] ++ [EvSearch search_url (search_params "q" "k" "cx" 10)])
       = (Ok (results resp), log').
Proof.
  apply (search_recipes_total_default strict_library
           (sample_world uncounted_data first_image_only None) "q" "k" "cx" 10 []
           uncounted_data
           (sample_item "a" (Some "http://i/1.png") (Some "https://www.a.com/r"))
           (tl sample_items)
           strict_library_stores_strings (sample_world_answers _ _ _ _ _) eq_refl eq_refl).
Defined.

Lemma search_recipes_empty_witness :
  search_recipes strict_library (sample_world empty_data first_image_only None)
                 "q" "k" "cx" 10 []
    = (Returns {| results := []; total_results := 0; search_time := "0.2" |},
       [] ++ [EvSearch search_url (search_params "q" "k" "cx" 10)])
  /\ filter is_probe
       (snd (search_recipes strict_library (sample_world empty_data first_image_only None)
                            "q" "k" "cx" 10 []))
     = filter is_probe [].
Proof.
  apply (search_recipes_empty strict_library
           (sample_world empty_data first_image_only None) "q" "k" "cx" 10 []
           empty_data "0.2" (sample_world_answers _ _ _ _ _) eq_refl eq_refl).
Defined.

Lemma search_recipes_upstream_failure_witness :
  search_recipes strict_library (failing_world (GetReturns service_unavailable))
                 "q" "k" "cx" 10 []
    = (HTTPException 500
         "Google Search API error: 503 Server Error: Service Unavailable",
       [EvSearch search_url sample_search])
  /\ List.length
       (filter is_search
          (snd (search_recipes strict_library (failing_world (GetReturns service_unavailable))
                               "q" "k" "cx" 10 [])))
     = 1%nat.
Proof.
  apply (search_recipes_upstream_failure strict_library
           (failing_world (GetReturns service_unavailable)) "q" "k" "cx" 10 []
           (RequestException (http_error service_unavailable))).
  apply (http_failure _ _ _ service_unavailable); [reflexivity | cbn; lia].
Defined.

(** C3 as stated fails.  With no items and a reported count of five, the
    total in the response is zero; with items and no reported count, the
    total is the number of results left after filtering (one of the two
    candidates), so it does reflect the filtering. *)
Lemma search_recipes_total_not_upstream :
  (fst (search_recipes strict_library (sample_world empty_data first_image_only None)
                       "q" "k" "cx" 10 [])
     = Returns {| results := []; total_results := 0; search_time := "0.2" |}
   /\ option_map py_int (totalResults (search_information empty_data)) = Some (Ok 5%Z))
  /\ (fst (search_recipes strict_library
                          (sample_world uncounted_data first_image_only None)
                          "q" "k" "cx" 10 [])
        = Returns {| results := [candidate_a]; total_results := 1; search_time := "0" |}
      /\ fst (candidates strict_library (sample_world uncounted_data first_image_only None)
                         sample_items)
         = [candidate_a; candidate_c]).
Proof. repeat split. Qed.

(** ** The domain extractor *)

(** C5, as the extractor has it: for a URL made of a scheme, [://], a host
    name and then nothing or a path, query or fragment, the extractor
    returns the host name in lower case with a leading [www.] removed; what
    it returns is always in lower case; when the URL parser raises, as on
    [http://[::1], it returns ["unknown"] instead of raising; and
    [https://www.example.com/x] gives [example.com]. *)
Theorem get_domain_name_host (lib : Library) (scheme host rest : string) :
  is_scheme scheme = true ->
  is_host host = true ->
  ends_host rest = true ->
  ((forall name, Str.lower host = ("www." ++ name)%string ->
                 get_domain_name lib (scheme ++ "://" ++ host ++ rest) = name)
   /\ (~ begins_with (Str.lower host) "www." ->
       get_domain_name lib (scheme ++ "://" ++ host ++ rest) = Str.lower host))
  /\ (forall url, Str.lower (get_domain_name lib url) = get_domain_name lib url)
  /\ (forall url e, UrlParse.urlsplit_netloc lib url = Raise e ->
                    get_domain_name lib url = "unknown")
  /\ get_domain_name lib "https://www.example.com/x" = "example.com"
  /\ get_domain_name lib "http://[::1" = "unknown".
Proof.
  intros Hs Hh Hr. split; [|split; [|split; [|split]]].
  - unfold get_domain_name.
    rewrite (UrlFacts.urlsplit_netloc_url lib scheme host rest Hs Hh Hr).
    cbv zeta. split.
    + intros name Hn. rewrite Hn.
      assert (E : Str.startswith ("www." ++ name) "www." = true)
        by (apply startswith_iff; now exists name).
      rewrite E. reflexivity.
    + intros Hn. destruct (Str.startswith (Str.lower host) "www.") eqn:E; [|reflexivity].
      apply startswith_iff in E. contradiction.
  - intros url. unfold get_domain_name.
    destruct (UrlParse.urlsplit_netloc lib url) as [netloc|e]; [|reflexivity].
    cbv zeta. destruct (Str.startswith _ _).
    + now rewrite UrlFacts.lower_drop, UrlFacts.lower_idem.
    + apply UrlFacts.lower_idem.
  - intros url e H. unfold get_domain_name. now rewrite H.
  - reflexivity.
  - reflexivity.
Qed.

Lemma get_domain_name_host_witness :
  get_domain_name strict_library ("HTTPS" ++ "://" ++ "WWW.Example.COM" ++ "/Recipes?id=1")
  = "example.com".
Proof.
  apply (proj1 (get_domain_name_host strict_library
                  "HTTPS" "WWW.Example.COM" "/Recipes?id=1" eq_refl eq_refl eq_refl)).
  reflexivity.
Defined.

(** C5 as stated fails: a string that is no URL parses without an error,
    with an empty network location, so the extractor returns the empty
    string and not ["unknown"]; and for a URL with a port what it returns
    is not the host name alone. *)
Lemma get_domain_name_not_unknown :
  get_domain_name strict_library "not a url" = ""
  /\ get_domain_name strict_library "not a url" <> "unknown"
  /\ get_domain_name strict_library "https://www.example.com:8080/x"
     = "example.com:8080".
Proof. repeat split. discriminate. Qed.

(** * Further properties *)

(** ** The candidates built from the items *)

Lemma process_item_links (lib : Library) (w : World)
    (acc : list SearchResult * list (M bool)) (item : Item) :
  process_item lib w acc item =
    if has_links item
    then (fst acc ++ [candidate_of lib item],
          snd acc ++ [validate_image_url w (Some (image_link item))])
    else acc.
Proof.
  destruct acc as [rs ts]. unfold process_item, has_links, context_link, image_link.
  cbn [fst snd]. rewrite <- negb_andb.
  now destruct (Str.truthy _ && Str.truthy _).
Qed.

Lemma candidates_fold (lib : Library) (w : World) (its : list Item)
    (acc : list SearchResult * list (M bool)) :
  fst (fold_left (process_item lib w) its acc)
  = fst acc ++ map (candidate_of lib) (filter has_links its).
Proof.
  revert acc. induction its as [|it its IH]; intros acc; simpl.
  - now rewrite app_nil_r.
  - rewrite IH, process_item_links. destruct (has_links it); simpl.
    + now rewrite <- app_assoc.
    + reflexivity.
Qed.

Lemma candidates_links (lib : Library) (w : World) (its : list Item) :
  fst (candidates lib w its) = map (candidate_of lib) (filter has_links its).
Proof. unfold candidates. now rewrite candidates_fold. Qed.

Lemma candidates_nonempty_links (lib : Library) (w : World) (its : list Item) :
  Forall (fun r => url r <> "" /\ image r <> "") (fst (candidates lib w its)).
Proof.
  rewrite candidates_links, Forall_map, Forall_forall.
  intros it Hin. apply filter_In in Hin as [_ H]. unfold has_links in H.
  apply andb_true_iff in H as [H1 H2]. cbn [url image candidate_of].
  split; intros E; rewrite E in *; discriminate.
Qed.

(** X1: the candidates are built from exactly the items that carry both a
    context link and an image link that are not empty, one candidate for
    each in the order of the items, a missing title or snippet being the
    empty string; so there are never more candidates than items, and every
    candidate has a URL and an image that are not empty. *)
Theorem candidates_of_linked_items (lib : Library) (w : World) (its : list Item) :
  fst (candidates lib w its) = map (candidate_of lib) (filter has_links its)
  /\ (List.length (fst (candidates lib w its)) <= List.length its)%nat
  /\ Forall (fun r => url r <> "" /\ image r <> "") (fst (candidates lib w its)).
Proof.
  split; [apply candidates_links|]. split; [|apply candidates_nonempty_links].
  rewrite candidates_links, length_map. apply filter_length_le.
Qed.

(** ** The probes of a batch *)

Lemma verdict_probe (w : World) (log : list event) (r : SearchResult) :
  image r <> "" ->
  validate_image_url w (Some (image r)) log
  = (Ok (verdict w log r), log ++ [image_probe r]).
Proof. intros H. now rewrite validate_image_url_probe. Qed.

Lemma run_tasks_validate (w : World) (rs : list SearchResult) (log : list event) :
  Forall (fun r => image r <> "") rs ->
  run_tasks (map (fun r => validate_image_url w (Some (image r))) rs) log
  = (map Returned (verdicts w log rs), log ++ map image_probe rs).
Proof.
  intros H. revert log. induction H as [|r rs Hr _ IH]; intros log;
    cbn [run_tasks map verdicts].
  - now rewrite app_nil_r.
  - rewrite (verdict_probe w log r Hr), IH. now rewrite <- app_assoc.
Qed.

Lemma kept_by_outcome_filter {A : Type} (f : A -> bool) (rs : list A) :
  kept_by_outcome rs (map Returned (map f rs)) = filter f rs.
Proof.
  induction rs as [|r rs IH]; simpl; [reflexivity|].
  rewrite IH. now destruct (f r).
Qed.

Lemma verdicts_steady (w : World) (log : list event) (rs : list SearchResult) :
  steady_proxy w -> verdicts w log rs = map (verdict w []) rs.
Proof.
  intros Hw. revert log. induction rs as [|r rs IH]; intros log; simpl; [reflexivity|].
  rewrite IH. f_equal. unfold verdict. now rewrite (Hw log []).
Qed.

Lemma kept_by_outcome_probed (w : World) (rs : list SearchResult) (log : list event)
    (r : SearchResult) :
  In r (kept_by_outcome rs (map Returned (verdicts w log rs))) ->
  exists before after,
    rs = before ++ r :: after
    /\ verdict w (log ++ map image_probe before) r = true.
Proof.
  revert log. induction rs as [|r0 rs IH]; intros log; simpl; [tauto|].
  assert (Hlater : In r (kept_by_outcome rs
                           (map Returned (verdicts w (log ++ [image_probe r0]) rs))) ->
                   exists before after,
                     r0 :: rs = before ++ r :: after
                     /\ verdict w (log ++ map image_probe before) r = true).
  { intros H. destruct (IH _ H) as (before & after & -> & Hv).
    exists (r0 :: before), after. split; [reflexivity|].
    cbn [map]. now rewrite <- app_assoc in Hv. }
  destruct (verdict w log r0) eqn:E; simpl; [|exact Hlater].
  intros [<-|H]; [|now apply Hlater].
  exists [], rs. split; [reflexivity|]. cbn [map]. now rewrite app_nil_r.
Qed.

Lemma verdict_accepts (w : World) (log : list event) (r : SearchResult) :
  verdict w log r = true <-> accepts (head_probe w log (proxy_url_of (image r))).
Proof.
  unfold verdict, accepts. destruct (head_probe w log _) as [e|resp].
  - split; [discriminate | intros (r' & H & _); discriminate].
  - rewrite andb_true_iff, Z.eqb_eq, startswith_iff. split.
    + intros [Hs Hc]. now exists resp.
    + intros (r' & H & Hs & Hc). injection H as <-. now split.
Qed.

(** The batch step on the candidates of the handler, when the join does
    not fail. *)
Lemma validate_all_candidates (lib : Library) (w : World) (its : list Item)
    (log : list event) :
  gather_fault w = None ->
  validate_all w (fst (candidates lib w its)) (snd (candidates lib w its)) log
  = (Ok (kept_by_outcome (fst (candidates lib w its))
           (map Returned (verdicts w log (fst (candidates lib w its))))),
     log ++ map image_probe (fst (candidates lib w its))).
Proof.
  intros Hf. rewrite (validate_all_no_fault _ _ _ _ Hf), candidates_tasks.
  rewrite run_tasks_validate; [reflexivity|].
  eapply Forall_impl; [|apply candidates_nonempty_links]. now intros r [_ H].
Qed.

(** ** The log of a request *)

Lemma fetch_log (w : World) (params : SearchParams) (log : list event) :
  snd (fetch w params log) = log ++ [EvSearch search_url params].
Proof.
  unfold fetch, bind, requests_get, raise_for_status, lift, ret.
  destruct (search_api w log search_url params) as [e|r]; [reflexivity|].
  now destruct ((400 <=? status_code r) && (status_code r <? 600))%Z.
Qed.

Lemma respond_log (lib : Library) (w : World) (data : UpstreamData)
    (log : list event) :
  snd (respond lib w data log)
  = match get (items data) [] with
    | [] => log
    | its =>
        snd (validate_all w (fst (candidates lib w its)) (snd (candidates lib w its)) log)
    end.
Proof.
  unfold respond. destruct (get (items data) []) as [|it its].
  - unfold new_SearchResponse, bind, lift, ret. now destruct (str_field lib _).
  - fold (candidates lib w (it :: its)).
    destruct (validate_all_total w (fst (candidates lib w (it :: its)))
                (snd (candidates lib w (it :: its))) log) as (kept & log' & Hv).
    rewrite Hv. destruct (candidates lib w (it :: its)) as [rs ts]. cbn [fst snd] in Hv.
    unfold bind at 1. rewrite Hv. unfold bind, lift, new_SearchResponse.
    destruct (py_int _); [|reflexivity].
    unfold bind, lift, ret. now destruct (str_field lib _).
Qed.

Lemma search_recipes_log (lib : Library) (w : World) (q key cx : string) (num : Z)
    (log : list event) :
  snd (search_recipes lib w q key cx num log)
  = match fst (fetch w (search_params q key cx num) log) with
    | Ok data =>
        snd (respond lib w data (log ++ [EvSearch search_url (search_params q key cx num)]))
    | Raise _ => log ++ [EvSearch search_url (search_params q key cx num)]
    end.
Proof.
  unfold search_recipes.
  pose proof (fetch_log w (search_params q key cx num) log) as Hl.
  destruct (fetch w (search_params q key cx num) log) as [[data|e] l]; cbn [fst snd] in *.
  - subst l. now destruct (respond lib w data _) as [[resp|e] l'].
  - subst l. now destruct e.
Qed.

(** X2: whatever the world answers, a request appends to the log exactly
    one search request, sent first and with at most ten results asked
    for, followed by nothing but image probes, at most one for each item
    the provider returned and none when the provider's answer is not
    read. *)
Theorem search_recipes_requests (lib : Library) (w : World) (q key cx : string)
    (num : Z) (log : list event) :
  exists probes,
    snd (search_recipes lib w q key cx num log)
      = log ++ EvSearch search_url (search_params q key cx num) :: probes
    /\ (p_num (search_params q key cx num) <= 10)%Z
    /\ Forall (fun e => is_probe e = true) probes
    /\ match fst (fetch w (search_params q key cx num) log) with
       | Ok data => (List.length probes <= List.length (get (items data) []))%nat
       | Raise _ => probes = []
       end.
Proof.
  rewrite search_recipes_log.
  assert (Hnum : (p_num (search_params q key cx num) <= 10)%Z) by (cbn; lia).
  destruct (fst (fetch w (search_params q key cx num) log)) as [data|e].
  2: { exists []. repeat split; auto. }
  rewrite respond_log.
  destruct (get (items data) []) as [|it its] eqn:Hit.
  { exists []. repeat split; auto; try (cbn; lia). }
  cbv beta iota zeta.
  destruct (gather_fault w) as [e|] eqn:Hf.
  - rewrite (validate_all_fault _ _ _ _ e Hf). exists []. repeat split; auto; try (cbn; lia).
  - rewrite (validate_all_candidates lib w (it :: its) _ Hf). cbn [snd].
    exists (map image_probe (fst (candidates lib w (it :: its)))).
    rewrite <- app_assoc. repeat split; auto.
    + rewrite Forall_map, Forall_forall. reflexivity.
    + rewrite length_map, candidates_links, length_map. apply filter_length_le.
Qed.

(** X3: when the provider answers and the join does not fail, the probes
    sent are exactly the probes of the candidates' images through the
    proxy, one for each candidate and in the order of the candidates,
    whatever the earlier probes gave and whether or not a response is
    built in the end. *)
Theorem search_recipes_probes (lib : Library) (w : World) (q key cx : string)
    (num : Z) (log : list event) (data : UpstreamData) :
  gather_fault w = None ->
  upstream_answers w log (search_params q key cx num) data ->
  snd (search_recipes lib w q key cx num log)
  = log ++ EvSearch search_url (search_params q key cx num)
        :: map image_probe (fst (candidates lib w (get (items data) []))).
Proof.
  intros Hf Hup. rewrite search_recipes_log, (fetch_answers _ _ _ _ Hup). cbn [fst].
  rewrite respond_log. destruct (get (items data) []) as [|it its]; [reflexivity|].
  cbv beta iota zeta. rewrite (validate_all_candidates lib w (it :: its) _ Hf). cbn [snd].
  now rewrite <- app_assoc.
Qed.

(** ** The results of a response *)

Lemma kept_by_outcome_sub {A : Type} (rs : list A) (os : list TaskResult) :
  (forall r, In r (kept_by_outcome rs os) -> In r rs)
  /\ (List.length (kept_by_outcome rs os) <= List.length rs)%nat.
Proof.
  revert os. induction rs as [|r0 rs IH]; intros [|o os]; simpl;
    try (split; [tauto | lia]).
  destruct (IH os) as [Hin Hlen]. destruct (is_True o); simpl; split; try lia.
  - intros r [<-|H]; [now left | right; now apply Hin].
  - intros r H. right. now apply Hin.
Qed.

Lemma validate_all_sub (w : World) (rs kept : list SearchResult)
    (ts : list (M bool)) (log log' : list event) :
  validate_all w rs ts log = (Ok kept, log') ->
  (forall r, In r kept -> In r rs) /\ (List.length kept <= List.length rs)%nat.
Proof.
  destruct (gather_fault w) as [e|] eqn:Hf.
  - rewrite (validate_all_fault _ _ _ _ e Hf). intros H. injection H as <- _.
    split; [tauto | lia].
  - rewrite (validate_all_no_fault _ _ _ _ Hf). intros H. injection H as <- _.
    apply kept_by_outcome_sub.
Qed.

Lemma search_recipes_returns (lib : Library) (w : World) (q key cx : string) (num : Z)
    (log log' : list event) (resp : SearchResponse) :
  search_recipes lib w q key cx num log = (Returns resp, log') ->
  exists data,
    fetch w (search_params q key cx num) log
      = (Ok data, log ++ [EvSearch search_url (search_params q key cx num)])
    /\ respond lib w data (log ++ [EvSearch search_url (search_params q key cx num)])
       = (Ok resp, log').
Proof.
  unfold search_recipes.
  pose proof (fetch_log w (search_params q key cx num) log) as Hl.
  destruct (fetch w (search_params q key cx num) log) as [[data|e] l]; cbn [snd] in Hl.
  - subst l. destruct (respond lib w data _) as [[r|e] l'] eqn:Hr; [|discriminate].
    intros H. injection H as <- <-. now exists data.
  - destruct e; discriminate.
Qed.

Lemma respond_results (lib : Library) (w : World) (data : UpstreamData)
    (log log' : list event) (resp : SearchResponse) :
  respond lib w data log = (Ok resp, log') ->
  fst (validate_all w (fst (candidates lib w (get (items data) [])))
                    (snd (candidates lib w (get (items data) []))) log)
  = Ok (results resp).
Proof.
  unfold respond. destruct (get (items data) []) as [|it its].
  - unfold new_SearchResponse, bind, lift, ret.
    destruct (str_field lib _); [|discriminate].
    intros H. injection H as <- _.
    destruct (gather_fault w) as [e|] eqn:Hf.
    + now rewrite (validate_all_fault _ _ _ _ e Hf).
    + now rewrite (validate_all_no_fault _ _ _ _ Hf).
  - fold (candidates lib w (it :: its)).
    destruct (validate_all_total w (fst (candidates lib w (it :: its)))
                (snd (candidates lib w (it :: its))) log) as (kept & l & Hv).
    rewrite Hv. destruct (candidates lib w (it :: its)) as [rs ts]. cbn [fst snd] in Hv.
    unfold bind at 1. rewrite Hv. unfold bind, lift, new_SearchResponse.
    destruct (py_int _); [|discriminate].
    unfold bind, lift, ret. destruct (str_field lib _); [|discriminate].
    intros H. now injection H as <- _.
Qed.

(** X4: in every response the handler returns, each result is one of the
    candidates, unchanged: its URL and its image are not empty and its
    source is the domain extracted from its URL; and there are no more
    results than candidates, hence than items of the provider. *)
Theorem search_recipes_results_are_candidates (lib : Library) (w : World)
    (q key cx : string) (num : Z) (log log' : list event) (resp : SearchResponse) :
  search_recipes lib w q key cx num log = (Returns resp, log') ->
  exists data,
    fst (fetch w (search_params q key cx num) log) = Ok data
    /\ (forall r, In r (results resp) ->
                  In r (fst (candidates lib w (get (items data) [])))
                  /\ url r <> "" /\ image r <> ""
                  /\ source r = get_domain_name lib (url r))
    /\ (List.length (results resp) <= List.length (get (items data) []))%nat.
Proof.
  intros Hs. destruct (search_recipes_returns _ _ _ _ _ _ _ _ _ Hs) as (data & Hf & Hr).
  exists data. split; [now rewrite Hf|].
  apply respond_results in Hr.
  destruct (validate_all w _ _ _) as [[kept|e] l] eqn:Hv; [|discriminate].
  cbn [fst] in Hr. injection Hr as ->.
  destruct (validate_all_sub _ _ _ _ _ _ Hv) as [Hin Hlen].
  split.
  - intros r Hr. specialize (Hin r Hr). split; [assumption|].
    pose proof (candidates_nonempty_links lib w (get (items data) [])) as Hne.
    rewrite Forall_forall in Hne. destruct (Hne r Hin) as [Hu Hi].
    repeat split; try assumption.
    rewrite candidates_links in Hin. apply in_map_iff in Hin as (it & <- & _).
    reflexivity.
  - etransitivity; [exact Hlen|].
    rewrite candidates_links, length_map. apply filter_length_le.
Qed.

(** X5: when the join does not fail, every result of a response has had
    its image probed in the course of the request, after the search
    request, and the answer the proxy gave to that probe was accepted: it
    had status 200 and a content type that, in lower case, begins with
    [image/]. *)
Theorem search_recipes_results_accepted (lib : Library) (w : World)
    (q key cx : string) (num : Z) (log log' : list event) (resp : SearchResponse)
    (r : SearchResult) :
  gather_fault w = None ->
  search_recipes lib w q key cx num log = (Returns resp, log') ->
  In r (results resp) ->
  exists before after,
    log' = log ++ EvSearch search_url (search_params q key cx num)
               :: before ++ image_probe r :: after
    /\ accepts (head_probe w
                  (log ++ EvSearch search_url (search_params q key cx num) :: before)
                  (proxy_url_of (image r))).
Proof.
  intros Hf Hs Hin.
  destruct (search_recipes_returns _ _ _ _ _ _ _ _ _ Hs) as (data & _ & Hr).
  pose proof (respond_log lib w data
                (log ++ [EvSearch search_url (search_params q key cx num)])) as Hlog.
  rewrite Hr in Hlog. cbn [snd] in Hlog.
  apply respond_results in Hr.
  rewrite (validate_all_candidates lib w _ _ Hf) in Hr. cbn [fst] in Hr.
  injection Hr as Hr. rewrite <- Hr in Hin.
  destruct (get (items data) []) as [|it its]; [contradiction|].
  cbv beta iota zeta in Hlog.
  rewrite (validate_all_candidates lib w _ _ Hf) in Hlog. cbn [snd] in Hlog.
  apply kept_by_outcome_probed in Hin as (before & after & Hc & Hv).
  exists (map image_probe before), (map image_probe after). split.
  - rewrite Hlog, Hc, map_app, <- app_assoc. reflexivity.
  - apply verdict_accepts in Hv. now rewrite <- app_assoc in Hv.
Qed.

(** X6: when the join does not fail and the proxy answers a probe the same
    way whatever was sent before, the results of a response are exactly
    the candidates whose image the proxy accepts (status 200 and an image
    content type), in the order of the candidates. *)
Theorem search_recipes_results_filter (lib : Library) (w : World)
    (q key cx : string) (num : Z) (log log' : list event) (resp : SearchResponse) :
  steady_proxy w ->
  gather_fault w = None ->
  search_recipes lib w q key cx num log = (Returns resp, log') ->
  exists data,
    fst (fetch w (search_params q key cx num) log) = Ok data
    /\ results resp
       = filter (verdict w []) (fst (candidates lib w (get (items data) [])))
    /\ (forall r, verdict w [] r = true
                  <-> accepts (head_probe w [] (proxy_url_of (image r)))).
Proof.
  intros Hw Hf Hs.
  destruct (search_recipes_returns _ _ _ _ _ _ _ _ _ Hs) as (data & Hfe & Hr).
  exists data. split; [now rewrite Hfe|]. split; [|intros r; apply verdict_accepts].
  apply respond_results in Hr.
  rewrite (validate_all_candidates lib w _ _ Hf) in Hr. cbn [fst] in Hr.
  injection Hr as Hr. rewrite <- Hr.
  now rewrite (verdicts_steady w _ _ Hw), kept_by_outcome_filter.
Qed.

(** ** Errors that escape the handler *)

(** X7: when the provider answers with items and reports a count that
    [int] cannot convert, the handler ends with the exception [int]
    raises, unhandled: it returns no response and raises no HTTP 500 error
    of its own. *)
Theorem search_recipes_bad_count (lib : Library) (w : World) (q key cx : string)
    (num : Z) (log : list event) (data : UpstreamData) (it : Item) (its : list Item)
    (v : pyval) (e : exn) :
  stores_strings lib ->
  upstream_answers w log (search_params q key cx num) data ->
  get (items data) [] = it :: its ->
  totalResults (search_information data) = Some v ->
  py_int v = Raise e ->
  fst (search_recipes lib w q key cx num log) = Unhandled e.
Proof.
  intros Hlib Hup Hit Hv He.
  destruct (search_recipes_items lib w q key cx num log data it its Hlib Hup Hit)
    as (kept & l & _ & Hr).
  rewrite Hr, Hv. cbn [get]. now rewrite He.
Qed.

Lemma search_recipes_bad_count_witness :
  fst (search_recipes strict_library (sample_world miscounted_data first_image_only None)
                      "q" "k" "cx" 10 [])
  = Unhandled (OtherException "invalid literal for int() with base 10: 'about 5'").
Proof.
  apply (search_recipes_bad_count strict_library
           (sample_world miscounted_data first_image_only None) "q" "k" "cx" 10 []
           miscounted_data
           (sample_item "a" (Some "http://i/1.png") (Some "https://www.a.com/r"))
           (tl sample_items) (PStr "about 5")
           (OtherException "invalid literal for int() with base 10: 'about 5'")
           strict_library_stores_strings (sample_world_answers _ _ _ _ _)
           eq_refl eq_refl eq_refl).
Defined.

(** X8: when the provider returns no items, the search time goes to the
    response model as it was received; if the model rejects it, as a model
    that stores only strings rejects a number, the handler ends with the
    validation error, unhandled, after the one search request. *)
Theorem search_recipes_empty_rejected (lib : Library) (w : World)
    (q key cx : string) (num : Z) (log : list event) (data : UpstreamData) (e : exn) :
  upstream_answers w log (search_params q key cx num) data ->
  get (items data) [] = [] ->
  str_field lib (get (searchTime (search_information data)) (PStr "0")) = Raise e ->
  search_recipes lib w q key cx num log
  = (Unhandled e, log ++ [EvSearch search_url (search_params q key cx num)]).
Proof.
  intros Hup Hit Hst.
  unfold search_recipes. rewrite (fetch_answers _ _ _ _ Hup).
  unfold respond. rewrite Hit. fold (search_information data).
  unfold new_SearchResponse, bind, lift, ret. now rewrite Hst.
Qed.

Lemma search_recipes_empty_rejected_witness :
  search_recipes strict_library (sample_world timed_empty_data first_image_only None)
                 "q" "k" "cx" 10 []
  = (Unhandled (OtherException "Input should be a valid string"),
     [] ++ [EvSearch search_url (search_params "q" "k" "cx" 10)]).
Proof.
  apply (search_recipes_empty_rejected strict_library
           (sample_world timed_empty_data first_image_only None) "q" "k" "cx" 10 []
           timed_empty_data (OtherException "Input should be a valid string")
           (sample_world_answers _ _ _ _ _) eq_refl eq_refl).
Defined.

(** ** The validator and the headers of the answer *)

Lemma find_none_of {A : Type} (f : A -> bool) (l : list A) :
  (forall x, In x l -> f x = false) -> List.find f l = None.
Proof.
  induction l as [|x l IH]; intros H; simpl; [reflexivity|].
  rewrite (H x (or_introl eq_refl)). apply IH. intros y Hy. apply H. now right.
Qed.

(** X9: an answer with status 200 that has no content-type header is
    rejected: the validator returns false, having sent its one probe. *)
Theorem validate_image_url_no_content_type (w : World) (image_url : string)
    (log : list event) (r : HeadResponse) :
  image_url <> "" ->
  head_probe w log (proxy_url_of image_url) = ProbeReturns r ->
  no_content_type r ->
  validate_image_url w (Some image_url) log
  = (Ok false, log ++ [EvProbe (proxy_url_of image_url)]).
Proof.
  intros Hne Hp Hno. rewrite (validate_image_url_probe w image_url log Hne), Hp.
  assert (Hc : content_type_of r = "").
  { unfold content_type_of, headers_get. rewrite find_none_of; [reflexivity|].
    intros kv Hin. apply String.eqb_neq. exact (Hno kv Hin). }
  rewrite Hc. now rewrite andb_false_r.
Qed.

Lemma validate_image_url_no_content_type_witness :
  validate_image_url
    (sample_world no_data
       (fun _ => ProbeReturns {| status := 200; headers := [("Content-Length", "42")] |})
       None)
    (Some "http://i/1.png") []
  = (Ok false, [] ++ [EvProbe (proxy_url_of "http://i/1.png")]).
Proof.
  apply (validate_image_url_no_content_type _ "http://i/1.png" []
           {| status := 200; headers := [("Content-Length", "42")] |}).
  - discriminate.
  - reflexivity.
  - intros kv [<-|[]]. discriminate.
Defined.

(** ** The domain extractor on other URLs *)

Module NetlocFacts.
Import Str UrlParse StrFacts UrlFacts.

Lemma netloc_no_delimiter (a : string) (c : ascii) :
  is_netloc a = true -> contains c "/?#[]" = true -> contains c a = false.
Proof.
  intros Ha Hc. apply (all_contains _ _ _ Ha).
  unfold netloc_char. rewrite Hc. cbn. now rewrite andb_false_r.
Qed.

Lemma remove_netloc (b : ascii) (scheme a rest : string) :
  In b UNSAFE_URL_BYTES_TO_REMOVE ->
  all scheme_chars scheme = true ->
  is_netloc a = true ->
  remove b (scheme ++ "://" ++ a ++ rest)
  = (scheme ++ "://" ++ a ++ remove b rest)%string.
Proof.
  intros Hb Hs Ha.
  assert (Hsb : scheme_chars b = false /\ netloc_char b = false
                /\ contains b "://" = false).
  { simpl in Hb. destruct Hb as [<-|[<-|[<-|[]]]]; repeat split; reflexivity. }
  destruct Hsb as (H1 & H2 & H3).
  rewrite !remove_app.
  rewrite (remove_id b scheme (all_contains _ _ _ Hs H1)).
  rewrite (remove_id b "://" H3).
  now rewrite (remove_id b a (all_contains _ _ _ Ha H2)).
Qed.

Lemma sanitize_netloc (scheme a rest : string) :
  is_scheme scheme = true ->
  is_netloc a = true ->
  ends_host rest = true ->
  exists rest',
    sanitize (scheme ++ "://" ++ a ++ rest) = (scheme ++ "://" ++ a ++ rest')%string
    /\ ends_host rest' = true.
Proof.
  intros Hs Ha Hr.
  destruct scheme as [|c0 sch]; [discriminate|].
  apply andb_true_iff in Hs as [Hc0 Hall].
  exists (remove (ascii_of_nat 10) (remove (ascii_of_nat 13) (remove (ascii_of_nat 9) rest))).
  split.
  - unfold sanitize.
    change ((String c0 sch ++ "://" ++ a ++ rest)%string)
      with (String c0 (sch ++ "://" ++ a ++ rest)%string).
    cbn [lstrip]. rewrite (alpha_not_C0 c0 Hc0).
    change (String c0 (sch ++ "://" ++ a ++ rest)%string)
      with ((String c0 sch ++ "://" ++ a ++ rest)%string).
    cbn [fold_left UNSAFE_URL_BYTES_TO_REMOVE].
    rewrite !remove_netloc; try assumption; simpl; tauto.
  - repeat apply ends_host_remove; simpl; tauto.
Qed.

Lemma splitnetloc_netloc (a rest : string) :
  is_netloc a = true ->
  ends_host rest = true ->
  fst (splitnetloc (String "/" (String "/" (a ++ rest))) 2) = a.
Proof.
  intros Ha Hr. unfold splitnetloc. cbn [fst].
  set (url := String "/" (String "/" (a ++ rest))).
  assert (Hf : forall c, In c ["/"; "?"; "#"]%char ->
               find_from c 2 url
               = option_map (fun k => 2 + (String.length a + k))%nat (find c rest)).
  { intros c Hc. unfold find_from, url. cbn [drop].
    rewrite find_app.
    - now destruct (find c rest).
    - apply netloc_no_delimiter; [assumption|].
      cbn in Hc. destruct Hc as [<-|[<-|[<-|[]]]]; reflexivity. }
  rewrite (fold_min (fun c => find_from c 2 url) _ _ (2 + String.length a)).
  - unfold slice, url. cbn [drop].
    replace (2 + String.length a - 2)%nat with (String.length a) by lia.
    apply take_app.
  - unfold url. cbn [String.length]. rewrite length_app. lia.
  - intros c k Hc Hk. rewrite (Hf c Hc) in Hk.
    destruct (find c rest); [|discriminate]. injection Hk as <-. lia.
  - destruct rest as [|d r].
    + right. unfold url. cbn [String.length]. rewrite length_app. cbn. lia.
    + left. exists d. pose proof (delimiter_cases d Hr) as Hd.
      split; [assumption|]. rewrite (Hf d Hd). cbn [find].
      unfold eqc. rewrite Ascii.eqb_refl. cbn. f_equal. lia.
Qed.

Lemma checked_netloc_plain (lib : Library) (a : string) :
  is_netloc a = true -> checked_netloc lib a = Ok a.
Proof.
  intros Ha. unfold checked_netloc, checknetloc.
  rewrite (netloc_no_delimiter a "[" Ha eq_refl).
  rewrite (netloc_no_delimiter a "]" Ha eq_refl).
  assert (Hascii : isascii a = true).
  { revert Ha. apply all_impl. intros c Hc. unfold netloc_char in Hc.
    now apply andb_true_iff in Hc as [Hc _]; apply andb_true_iff in Hc as [Hc _]. }
  rewrite Hascii, orb_true_r. reflexivity.
Qed.

Lemma urlsplit_netloc_plain (lib : Library) (scheme a rest : string) :
  is_scheme scheme = true ->
  is_netloc a = true ->
  ends_host rest = true ->
  urlsplit_netloc lib (scheme ++ "://" ++ a ++ rest) = Ok a.
Proof.
  intros Hs Ha Hr.
  destruct (sanitize_netloc scheme a rest Hs Ha Hr) as (rest' & Hsan & Hr').
  unfold urlsplit_netloc. rewrite Hsan.
  change ((scheme ++ "://" ++ a ++ rest')%string)
    with ((scheme ++ String ":" (String "/" (String "/" (a ++ rest'))))%string).
  rewrite (after_scheme_url _ _ Hs).
  cbn [take String.eqb Ascii.eqb Bool.eqb].
  rewrite (splitnetloc_netloc a rest' Ha Hr').
  now apply checked_netloc_plain.
Qed.

Lemma lower_app (a b : string) : lower (a ++ b) = (lower a ++ lower b)%string.
Proof. induction a as [|c a IH]; simpl; [reflexivity | now rewrite IH]. Qed.

Lemma contains_remove (x b : ascii) (s : string) :
  contains x s = false -> contains x (remove b s) = false.
Proof.
  induction s as [|c s IH]; simpl; [reflexivity|].
  intros H. apply orb_false_iff in H as [Hc Hs].
  destruct (eqc c b); simpl; [now apply IH | now rewrite Hc, IH].
Qed.

Lemma find_absent (x : ascii) (s : string) : contains x s = false -> find x s = None.
Proof.
  induction s as [|c s IH]; simpl; [reflexivity|].
  intros H. apply orb_false_iff in H as [Hc Hs]. now rewrite Hc, IH.
Qed.

Lemma remove_head (b c : ascii) (s : string) :
  eqc c b = false -> remove b (String c s) = String c (remove b s).
Proof. intros H. simpl. now rewrite H. Qed.

Lemma not_C0_kept (c b : ascii) :
  C0_control_or_space c = false -> In b UNSAFE_URL_BYTES_TO_REMOVE -> eqc c b = false.
Proof.
  intros Hc Hb. unfold eqc. destruct (Ascii.eqb_spec c b) as [->|]; [|reflexivity].
  simpl in Hb. destruct Hb as [<-|[<-|[<-|[]]]]; discriminate.
Qed.

Lemma sanitize_head (c : ascii) (s : string) :
  C0_control_or_space c = false ->
  contains ":" (String c s) = false ->
  exists s', sanitize (String c s) = String c s'
             /\ contains ":" (String c s') = false.
Proof.
  intros Hc Hcolon.
  exists (remove (ascii_of_nat 10) (remove (ascii_of_nat 13) (remove (ascii_of_nat 9) s))).
  split.
  - unfold sanitize. cbn [lstrip]. rewrite Hc.
    cbn [fold_left UNSAFE_URL_BYTES_TO_REMOVE].
    rewrite !remove_head; try (apply not_C0_kept; [assumption | simpl; tauto]).
    reflexivity.
  - cbn [contains] in *. apply orb_false_iff in Hcolon as [H1 H2].
    rewrite H1. cbn [orb]. now repeat apply contains_remove.
Qed.

Lemma drop_www_port (h p : string) :
  startswith (h ++ ":" ++ p) "www." = true ->
  exists name, drop 4 (h ++ ":" ++ p) = (name ++ ":" ++ p)%string.
Proof.
  intros H. apply startswith_iff in H as [rest H].
  destruct h as [|c1 [|c2 [|c3 [|c4 h']]]]; simpl in H;
    try (exfalso; congruence).
  now exists h'.
Qed.

End NetlocFacts.

(** X10: for a URL made of a scheme, [://], a network location and then
    nothing or a path, query or fragment, the extractor returns the whole
    network location in lower case, user info and port included, less a
    leading [www.]; with a port [:p] after a host that does not begin with
    [www.], the result ends with that port. *)
Theorem get_domain_name_netloc (lib : Library) (scheme netloc rest : string) :
  is_scheme scheme = true ->
  is_netloc netloc = true ->
  ends_host rest = true ->
  (forall name, Str.lower netloc = ("www." ++ name)%string ->
                get_domain_name lib (scheme ++ "://" ++ netloc ++ rest) = name)
  /\ (~ begins_with (Str.lower netloc) "www." ->
      get_domain_name lib (scheme ++ "://" ++ netloc ++ rest) = Str.lower netloc)
  /\ (forall host port, netloc = (host ++ ":" ++ port)%string ->
        exists name,
          get_domain_name lib (scheme ++ "://" ++ netloc ++ rest)
          = (name ++ ":" ++ Str.lower port)%string).
Proof.
  intros Hs Ha Hr.
  assert (Hg : get_domain_name lib (scheme ++ "://" ++ netloc ++ rest)
               = if Str.startswith (Str.lower netloc) "www."
                 then Str.drop 4 (Str.lower netloc) else Str.lower netloc).
  { unfold get_domain_name.
    now rewrite (NetlocFacts.urlsplit_netloc_plain lib scheme netloc rest Hs Ha Hr). }
  split; [|split].
  - intros name Hn. rewrite Hg, Hn.
    assert (E : Str.startswith ("www." ++ name) "www." = true)
      by (apply startswith_iff; now exists name).
    rewrite E. reflexivity.
  - intros Hn. rewrite Hg.
    destruct (Str.startswith (Str.lower netloc) "www.") eqn:E; [|reflexivity].
    apply startswith_iff in E. contradiction.
  - intros host port ->. rewrite Hg. clear Hg. rewrite NetlocFacts.lower_app.
    change (Str.lower (":" ++ port)) with (":" ++ Str.lower port)%string.
    destruct (Str.startswith _ "www.") eqn:E.
    + now apply NetlocFacts.drop_www_port.
    + now exists (Str.lower host).
Qed.

Lemma get_domain_name_netloc_witness :
  exists name,
    get_domain_name strict_library
      ("https" ++ "://" ++ ("Chef@WWW.Example.com" ++ ":" ++ "8080") ++ "/r")
    = (name ++ ":" ++ Str.lower "8080")%string.
Proof.
  apply (proj2 (proj2 (get_domain_name_netloc strict_library
                         "https" ("Chef@WWW.Example.com" ++ ":" ++ "8080") "/r"
                         eq_refl eq_refl eq_refl))
           "Chef@WWW.Example.com" "8080").
  reflexivity.
Defined.

(** X11: a URL that holds no colon and begins with a character that is
    neither a slash nor a space or control character, such as a link
    written without its scheme, has no network location for the parser:
    the extractor returns the empty string. *)
Theorem get_domain_name_no_scheme (lib : Library) (c : ascii) (s : string) :
  UrlParse.C0_control_or_space c = false ->
  c <> "/"%char ->
  Str.contains ":" (String c s) = false ->
  get_domain_name lib (String c s) = "".
Proof.
  intros Hc Hslash Hcolon.
  destruct (NetlocFacts.sanitize_head c s Hc Hcolon) as (s' & Hsan & Hcolon').
  unfold get_domain_name, UrlParse.urlsplit_netloc. rewrite Hsan.
  unfold UrlParse.after_scheme. rewrite (NetlocFacts.find_absent _ _ Hcolon').
  cbn [Str.take String.eqb].
  apply Ascii.eqb_neq in Hslash. rewrite Hslash. reflexivity.
Qed.

Lemma get_domain_name_no_scheme_witness :
  get_domain_name strict_library "www.example.com/recipes/1" = "".
Proof.
  apply (get_domain_name_no_scheme strict_library "w" "ww.example.com/recipes/1").
  - reflexivity.
  - discriminate.
  - reflexivity.
Defined.

(** ** The further properties on the sample inputs *)

Lemma sample_run_returns :
  search_recipes strict_library sample_run "q" "k" "cx" 10 [] = (Returns sample_kept, sample_log).
Proof. reflexivity. Defined.

Lemma search_recipes_probes_witness :
  snd (search_recipes strict_library sample_run "q" "k" "cx" 10 [])
  = [] ++ EvSearch search_url (search_params "q" "k" "cx" 10)
          :: map image_probe
               (fst (candidates strict_library sample_run (get (items sample_data) []))).
Proof.
  apply (search_recipes_probes strict_library sample_run "q" "k" "cx" 10 [] sample_data
           eq_refl (sample_world_answers _ _ _ _ _)).
Defined.

Lemma search_recipes_results_are_candidates_witness :
  exists data,
    fst (fetch sample_run (search_params "q" "k" "cx" 10) []) = Ok data
    /\ (forall r, In r (results sample_kept) ->
                  In r (fst (candidates strict_library sample_run (get (items data) [])))
                  /\ url r <> "" /\ image r <> ""
                  /\ source r = get_domain_name strict_library (url r))
    /\ (List.length (results sample_kept) <= List.length (get (items data) []))%nat.
Proof.
  apply (search_recipes_results_are_candidates strict_library sample_run
           "q" "k" "cx" 10 [] sample_log sample_kept sample_run_returns).
Defined.

Lemma search_recipes_results_accepted_witness :
  exists before after,
    sample_log = [] ++ EvSearch search_url (search_params "q" "k" "cx" 10)
                    :: before ++ image_probe candidate_a :: after
    /\ accepts (head_probe sample_run
                  ([] ++ EvSearch search_url (search_params "q" "k" "cx" 10) :: before)
                  (proxy_url_of (image candidate_a))).
Proof.
  apply (search_recipes_results_accepted strict_library sample_run
           "q" "k" "cx" 10 [] sample_log sample_kept candidate_a
           eq_refl sample_run_returns).
  now left.
Defined.

Lemma search_recipes_results_filter_witness :
  exists data,
    fst (fetch sample_run (search_params "q" "k" "cx" 10) []) = Ok data
    /\ results sample_kept
       = filter (verdict sample_run [])
                (fst (candidates strict_library sample_run (get (items data) [])))
    /\ (forall r, verdict sample_run [] r = true
                  <-> accepts (head_probe sample_run [] (proxy_url_of (image r)))).
Proof.
  apply (search_recipes_results_filter strict_library sample_run
           "q" "k" "cx" 10 [] sample_log sample_kept).
  - intros log1 log2 u. reflexivity.
  - reflexivity.
  - exact sample_run_returns.
Defined.
